(** * tenable.securitycenter: the SecurityCenter 5 session client

    A shallow embedding of [tenable/securitycenter/securitycenter.py]:
    the class [SecurityCenter(APISession)] with its constructor, the
    response error check, login, logout, upload and the paginated
    [analysis] call.

    Python objects are rendered as the inductive [value]; dictionaries
    (keyword arguments, JSON objects, HTTP headers) are finite maps keyed
    by strings.  A method that may raise returns an [outcome]; a method
    that talks to the server or touches the session runs in the state
    monad [M] over a [world] holding the session and the requests sent. *)

From Stdlib Require Import ZArith String Ascii List Lia.
From stdpp Require Import base gmap strings list fin_maps pretty.

Set Warnings "-register-all".

(** ** Python values *)

(** The callables that can sit in [opts['page_obj']]: the two local
    functions of [analysis] and functions supplied by the caller. *)
Inductive callable : Type :=
| return_results
| return_generator
| user_func (id : nat).

(** [VResp body] is a [requests.Response] whose [.json()] yields [body],
    or raises [ValueError] when [body] is [None]. [VGenerator kw] is the
    generator object made by calling [return_generator] with keyword
    arguments [kw]: its body has not run. *)
Inductive value : Type :=
| VNone
| VBool (b : bool)
| VInt (n : Z)
| VStr (s : string)
| VList (xs : list value)
| VDict (d : gmap string value)
| VFunc (f : callable)
| VGenerator (kw : gmap string value)
| VResp (body : option value).

Abbreviation dict := (gmap string value).
Abbreviation response := (option value).

Inductive exn : Type :=
| ValueError
| KeyError (key : string)
| IndexError
| TypeError
| AttributeError
| APIError (code msg : value)
| ServerError (msg : string)
| TransportError (detail : string).

(** The result of running a piece of Python. [Unmodelled] marks an
    operation on operand types this development gives no semantics to
    (floats, sequence repetition, user-defined [__bool__] ...);
    [OutOfFuel] marks a [while] loop that is still running when the
    fuel is spent. *)
Inductive outcome (A : Type) : Type :=
| Ok (a : A)
| Raise (e : exn)
| Unmodelled
| OutOfFuel.

Arguments Ok {A} a.
Arguments Raise {A} e.
Arguments Unmodelled {A}.
Arguments OutOfFuel {A}.

Definition obind {A B : Type} (m : outcome A) (k : A -> outcome B) : outcome B :=
  match m with
  | Ok a => k a
  | Raise e => Raise e
  | Unmodelled => Unmodelled
  | OutOfFuel => OutOfFuel
  end.

#[global] Instance outcome_fmap : FMap outcome :=
  fun A B f m =>
    match m with
    | Ok a => Ok (f a)
    | Raise e => Raise e
    | Unmodelled => Unmodelled
    | OutOfFuel => OutOfFuel
    end.

#[global] Instance outcome_ret : MRet outcome := @Ok.
#[global] Instance outcome_bind : MBind outcome := fun A B k m => obind m k.

(** [try: m  except ValueError: h] *)
Definition except_ValueError {A : Type} (m : outcome A) (h : outcome A) : outcome A :=
  match m with
  | Raise ValueError => h
  | other => other
  end.

(** [try: m  except: raise e] (a bare [except] catches every exception). *)
Definition except_all_raise {A : Type} (m : outcome A) (e : exn) : outcome A :=
  match m with
  | Raise _ => Raise e
  | other => other
  end.

(** *** Operators *)

(** [bool(v)], as used by [if v:]. *)
Definition truthy (v : value) : outcome bool :=
  match v with
  | VNone => Ok false
  | VBool b => Ok b
  | VInt n => Ok (negb (n =? 0)%Z)
  | VStr s => Ok (negb (String.eqb s EmptyString))
  | VList xs => Ok (match xs with [] => false | _ => true end)
  | VDict d => Ok (negb (bool_decide (d = ∅)))
  | VFunc _ => Ok true
  | VGenerator _ => Ok true
  | VResp _ => Unmodelled
  end.

(** [d[k]] on a dictionary. *)
Definition getitem (d : dict) (k : string) : outcome value :=
  match d !! k with
  | Some v => Ok v
  | None => Raise (KeyError k)
  end.

(** [v[k]] with a string key, on any value. *)
Definition subscript (v : value) (k : string) : outcome value :=
  match v with
  | VDict d => getitem d k
  | _ => Raise TypeError
  end.

(** [v[k] = x] with a string key, on any value. *)
Definition setitem (v : value) (k : string) (x : value) : outcome value :=
  match v with
  | VDict d => Ok (VDict (<[k := x]> d))
  | _ => Raise TypeError
  end.

(** [f[i]] on a tuple. *)
Definition tuple_get (f : list value) (i : nat) : outcome value :=
  match f !! i with
  | Some v => Ok v
  | None => Raise IndexError
  end.

(** [r.json()] *)
Definition json (r : response) : outcome value :=
  match r with
  | Some d => Ok d
  | None => Raise ValueError
  end.

(** [d['response'][k]], the field [k] of the response envelope. *)
Definition envelope (d : value) (k : string) : outcome value :=
  r ← subscript d "response";
  subscript r k.

(** [v == s] for a string literal [s]. *)
Definition eq_str (v : value) (s : string) : bool :=
  match v with
  | VStr s' => bool_decide (s' = s)
  | _ => false
  end.

Definition digit_of (a : ascii) : option Z :=
  let n := Z.of_N (N_of_ascii a) in
  if ((48 <=? n) && (n <=? 57))%Z then Some (n - 48)%Z else None.

Fixpoint parse_digits (acc : Z) (s : string) : option Z :=
  match s with
  | EmptyString => Some acc
  | String a s' =>
      match digit_of a with
      | Some d => parse_digits (10 * acc + d)%Z s'
      | None => None
      end
  end.

(** Plain decimal literals: an optional sign and at least one digit. *)
Definition parse_decimal (s : string) : option Z :=
  match s with
  | EmptyString => None
  | String "-" (String a s' as ds) => Z.opp <$> parse_digits 0 ds
  | String "+" (String a s' as ds) => parse_digits 0 ds
  | _ => parse_digits 0 s
  end.

(** [int(v)]. The server sends its counters as decimal strings. *)
Definition py_int (v : value) : outcome Z :=
  match v with
  | VInt n => Ok n
  | VBool b => Ok (if b then 1 else 0)%Z
  | VStr s =>
      match parse_decimal s with
      | Some n => Ok n
      | None => Unmodelled
      end
  | _ => Raise TypeError
  end.

(** [a + b], [a * b], [a > b]: given on integers. *)
Definition py_add (a b : value) : outcome value :=
  match a, b with
  | VInt x, VInt y => Ok (VInt (x + y))
  | _, _ => Unmodelled
  end.

Definition py_mul (a b : value) : outcome value :=
  match a, b with
  | VInt x, VInt y => Ok (VInt (x * y))
  | _, _ => Unmodelled
  end.

Definition py_gt (a b : value) : outcome bool :=
  match a, b with
  | VInt x, VInt y => Ok (y <? x)%Z
  | _, _ => Unmodelled
  end.

(** ** The session and the server *)

Inductive payload : Type :=
| NoBody
| JsonBody (kwargs : dict)
| FilesBody (files : dict).

Record request : Type := {
  req_method : string;
  req_path : string;
  req_headers : dict;
  req_payload : payload
}.

(** [headers] and [cookies] are those of [self._session]; [sent] is the
    list of requests handed to the transport so far, oldest first;
    [insecure_warning_off] is the process-wide urllib3 switch. *)
Record world : Type := {
  headers : dict;
  cookies : dict;
  sent : list request;
  insecure_warning_off : bool
}.

Definition M (A : Type) : Type := world -> outcome A * world.

Definition ret {A : Type} (a : A) : M A := fun w => (Ok a, w).

Definition lift {A : Type} (m : outcome A) : M A := fun w => (m, w).

Definition bind {A B : Type} (m : M A) (k : A -> M B) : M B :=
  fun w =>
    match m w with
    | (Ok a, w') => k a w'
    | (Raise e, w') => (Raise e, w')
    | (Unmodelled, w') => (Unmodelled, w')
    | (OutOfFuel, w') => (OutOfFuel, w')
    end.

#[global] Instance M_ret : MRet M := @ret.
#[global] Instance M_bind : MBind M := fun A B k m => bind m k.

(** [try: m  except: raise e] in [M]. *)
Definition try_except_raise {A : Type} (m : M A) (e : exn) : M A :=
  fun w => let '(r, w') := m w in (except_all_raise r e, w').

(** ** APISession, the base class *)

Module APISession.
Section APISession.

(** The HTTP layer under the session: given the requests sent before and
    the request at hand, the decoded response or an exception. *)
Variable transport : list request -> request -> outcome response.

(** The response hook; [SecurityCenter] overrides it. *)
Variable _resp_error_check : response -> outcome response.

(** The [host] attribute the base class keeps for a URL. *)
Variable host_of_url : string -> string.

Record t : Type := { URL : string; host : string }.

(** Modelled from the spec: [APISession._build_session] (tenable/base.py)
    is missing from the sources at hand. Rebuilding the session clears the
    cookies and the authentication header. *)
Definition _build_session : M unit :=
  fun w =>
    (Ok tt,
     {| headers := delete "X-SecurityCenter" (headers w);
        cookies := ∅;
        sent := sent w;
        insecure_warning_off := insecure_warning_off w |}).

(** Modelled from the spec: [APISession.__init__] (tenable/base.py) is
    missing from the sources at hand. It constructs the HTTP session
    against the URL. *)
Definition __init__ (url : string) (retries backoff : value) : M t :=
  _ ← _build_session;
  ret {| URL := url; host := host_of_url url |}.

(** The request the session makes of a call, with its current headers. *)
Definition prepare (method path : string) (body : payload) (w : world) : request :=
  {| req_method := method; req_path := path;
     req_headers := headers w; req_payload := body |}.

Definition record_sent (rq : request) (w : world) : world :=
  {| headers := headers w;
     cookies := cookies w;
     sent := sent w ++ [rq];
     insecure_warning_off := insecure_warning_off w |}.

(** Modelled from the spec: [APISession._request] (tenable/base.py) is
    missing from the sources at hand. Every request goes through the
    session with its current headers, and the response hook is applied to
    every response; what the transport or the hook raises propagates. *)
Definition _request (method path : string) (body : payload) : M response :=
  fun w =>
    let rq := prepare method path body w in
    (resp ← transport (sent w) rq; _resp_error_check resp,
     record_sent rq w).

Definition get (path : string) : M response := _request "GET" path NoBody.

Definition post (path : string) (body : payload) : M response :=
  _request "POST" path body.

Definition delete (path : string) : M response := _request "DELETE" path NoBody.

End APISession.
End APISession.

(** ** SecurityCenter *)

(** [_resp_error_check], lines 54-61. *)
Definition _resp_error_check (resp : response) : outcome response :=
  _ ← except_ValueError
         (d ← json resp;
          c ← subscript d "error_code";
          b ← truthy c;
          if b : bool then
            code ← subscript d "error_code";
            msg ← subscript d "error_msg";
            Raise (APIError code msg)
          else Ok tt)
         (Ok tt);
  Ok resp.

Record client : Type := {
  base : APISession.t;
  version : value;
  build_id : value;
  license : value;
  uuid : value
}.

(** [requests.packages.urllib3.disable_warnings(InsecureRequestWarning)] *)
Definition disable_warnings : M unit :=
  fun w =>
    (Ok tt,
     {| headers := headers w; cookies := cookies w; sent := sent w;
        insecure_warning_off := true |}).

(** [self._session.headers.update(h)] *)
Definition headers_update (h : dict) : M unit :=
  fun w =>
    (Ok tt,
     {| headers := h ∪ headers w; cookies := cookies w; sent := sent w;
        insecure_warning_off := insecure_warning_off w |}).

(** [kwargs.setdefault]-like: [if k not in kwargs: kwargs[k] = v]. *)
Definition if_not_in (k : string) (v : value) (kwargs : dict) : dict :=
  match kwargs !! k with
  | Some _ => kwargs
  | None => <[k := v]> kwargs
  end.

(** Lines 155-161. *)
Definition defaults (kwargs : dict) : dict :=
  let kwargs := if_not_in "page" (VStr "all") kwargs in
  let kwargs := if_not_in "page_size" (VInt 1000) kwargs in
  let kwargs := if_not_in "page_obj" (VFunc return_results) kwargs in
  let kwargs := if_not_in "page_kwargs" (VDict ∅) kwargs in
  let kwargs := if_not_in "type" (VStr "vuln") kwargs in
  let kwargs := if_not_in "sourceType" (VStr "cumulative") kwargs in
  match kwargs !! "generator" with
  | Some _ => <["generator" := VFunc return_generator]> kwargs
  | None => kwargs
  end.

(** One round of the loop of lines 166-169, on the pair [(opts, kwargs)]. *)
Definition move_opt (acc : dict * dict) (opt : string) : dict * dict :=
  let '(opts, kwargs) := acc in
  match kwargs !! opt with
  | Some v => (<[opt := v]> opts, delete opt kwargs)
  | None => (opts, kwargs)
  end.

(** Lines 165-169. *)
Definition split_opts (kwargs : dict) : dict * dict :=
  fold_left move_opt
    ["page"; "page_size"; "page_obj"; "page_kwargs"; "generator"]
    (∅, kwargs).

(** One element of the list comprehension of line 178. *)
Definition filter_entry (kwargs : dict) (f : list value) : outcome value :=
  f0 ← tuple_get f 0;
  f1 ← tuple_get f 1;
  f2 ← tuple_get f 2;
  ty ← getitem kwargs "type";
  Ok (VDict {[ "filterName" := f0; "operator" := f1; "value" := f2;
               "type" := ty ]}).

Fixpoint for_each {A B : Type} (f : A -> outcome B) (l : list A)
  : outcome (list B) :=
  match l with
  | [] => Ok []
  | a :: l' => b ← f a; bs ← for_each f l'; Ok (b :: bs)
  end.

(** [kwargs['query'][k] = v] *)
Definition set_query (kwargs : dict) (k : string) (v : value) : outcome dict :=
  q ← getitem kwargs "query";
  q' ← setitem q k v;
  Ok (<["query" := q']> kwargs).

(** Lines 174-186. *)
Definition build_query (filters : list (list value)) (opts kwargs : dict)
  : outcome dict :=
  match kwargs !! "query" with
  | Some _ => Ok kwargs
  | None =>
      tool ← getitem kwargs "tool";
      ty ← getitem kwargs "type";
      fs ← for_each (filter_entry kwargs) filters;
      let kwargs :=
        <["query" := VDict {[ "tool" := tool; "type" := ty;
                              "filters" := VList fs ]}]> kwargs in
      let kwargs := delete "tool" kwargs in
      page ← getitem opts "page";
      if eq_str page "all" then
        kwargs ← set_query kwargs "startOffset" (VInt 0);
        size ← getitem opts "page_size";
        set_query kwargs "endOffset" size
      else
        page ← getitem opts "page";
        size ← getitem opts "page_size";
        start ← py_mul page size;
        kwargs ← set_query kwargs "startOffset" start;
        page ← getitem opts "page";
        next ← py_add page (VInt 1);
        size ← getitem opts "page_size";
        stop ← py_mul next size;
        set_query kwargs "endOffset" stop
  end.

(** The local variables of [analysis] that live across the loop. *)
Record frame : Type := {
  f_kwargs : dict;
  f_opts : dict;
  f_output : list value;
  f_count : value;
  f_total_records : value
}.

(** [v.json()] on any value. *)
Definition method_json (v : value) : outcome value :=
  match v with
  | VResp body => json body
  | _ => Raise AttributeError
  end.

Section SecurityCenter.

Variable transport : list request -> request -> outcome response.
Variable host_of_url : string -> string.

(** What the functions supplied by the caller return, given their keyword
    arguments. *)
Variable user_call : nat -> dict -> outcome value.

(** [self.get], [self.post], [self.delete]: the inherited methods, with
    the response hook of this class. *)
Definition self_get : string -> M response :=
  APISession.get transport _resp_error_check.

Definition self_post : string -> payload -> M response :=
  APISession.post transport _resp_error_check.

Definition self_delete : string -> M response :=
  APISession.delete transport _resp_error_check.

(** [__init__], lines 5-52. *)
Definition __init__ (host : string) (port : Z) (ssl_verify : bool)
    (scheme : string) (retries backoff : value) : M client :=
  let url := scheme +:+ "://" +:+ host +:+ ":" +:+ pretty port in
  _ ← (if negb ssl_verify then disable_warnings else ret tt);
  self ← APISession.__init__ host_of_url url retries backoff;
  d ← try_except_raise
         (r ← self_get "system"; lift (json r))
         (ServerError ("No SecurityCenter Instance at " +:+ APISession.host self));
  try_except_raise
    (lift (version ← envelope d "version";
           build_id ← envelope d "buildID";
           license ← envelope d "licenseStatus";
           uuid ← envelope d "uuid";
           Ok {| base := self; version := version; build_id := build_id;
                 license := license; uuid := uuid |}))
    (ServerError "Invalid SecurityCenter Instance").

(** [login], lines 63-77. *)
Definition login (user passwd : value) : M unit :=
  resp ← self_post "token"
            (JsonBody {[ "username" := user; "password" := passwd ]});
  token ← lift (d ← json resp; envelope d "token");
  headers_update {[ "X-SecurityCenter" := token ]}.

(** [logout], lines 79-82. *)
Definition logout : M unit :=
  resp ← self_delete "token";
  APISession._build_session.

(** [upload], lines 84-91. *)
Definition upload (fileobj : value) : M response :=
  self_post "file/upload" (FilesBody {[ "Filedata" := fileobj ]}).

(** Calling a value with keyword arguments; [return_results] and
    [return_generator] are lines 145-150. *)
Definition call (f : value) (kwargs : dict) : outcome value :=
  match f with
  | VFunc return_results =>
      resp ← getitem kwargs "resp";
      d ← method_json resp;
      envelope d "results"
  | VFunc return_generator => Ok (VGenerator kwargs)
  | VFunc (user_func id) => user_call id kwargs
  | _ => Raise TypeError
  end.

(** Lines 193-204: what the loop body does with the response. *)
Definition process_page (s : frame) (resp : response) : outcome frame :=
  page_kwargs ← getitem (f_opts s) "page_kwargs";
  page_kwargs ← setitem page_kwargs "resp" (VResp resp);
  let opts := <["page_kwargs" := page_kwargs]> (f_opts s) in
  page_obj ← getitem opts "page_obj";
  page_kwargs ← getitem opts "page_kwargs";
  star ← match page_kwargs with VDict d => Ok d | _ => Raise TypeError end;
  out ← call page_obj star;
  let output :=
    match out with
    | VList items => f_output s ++ items
    | _ => f_output s
    end in
  d ← json resp;
  t ← envelope d "totalRecords";
  total_records ← py_int t;
  page ← getitem opts "page";
  if eq_str page "all" then
    d ← json resp;
    e ← envelope d "endOffset";
    count ← py_int e;
    kwargs ← set_query (f_kwargs s) "startOffset" (VInt count);
    size ← getitem opts "page_size";
    stop ← py_add (VInt count) size;
    kwargs ← set_query kwargs "endOffset" stop;
    Ok {| f_kwargs := kwargs; f_opts := opts; f_output := output;
          f_count := VInt count; f_total_records := VInt total_records |}
  else
    Ok {| f_kwargs := f_kwargs s; f_opts := opts; f_output := output;
          f_count := VInt total_records;
          f_total_records := VInt total_records |}.

(** The body of the [while] loop, lines 191-204. *)
Definition analysis_body (s : frame) : M frame :=
  resp ← self_post "analysis" (JsonBody (f_kwargs s));
  lift (process_page s resp).

(** The [while] loop of lines 190-204; it yields [output]. *)
Fixpoint analysis_loop (fuel : nat) (s : frame) : M (list value) :=
  continue ← lift (py_gt (f_total_records s) (f_count s));
  if continue : bool then
    match fuel with
    | O => lift OutOfFuel
    | S fuel' => s' ← analysis_body s; analysis_loop fuel' s'
    end
  else ret (f_output s).

(** Lines 144-189: everything before the loop. *)
Definition analysis_setup (filters : list (list value)) (kwargs : dict)
  : outcome frame :=
  let kwargs := defaults kwargs in
  let '(opts, kwargs) := split_opts kwargs in
  kwargs ← build_query filters opts kwargs;
  size ← getitem opts "page_size";
  Ok {| f_kwargs := kwargs; f_opts := opts; f_output := [];
        f_count := VInt 0; f_total_records := size |}.

(** [analysis], lines 93-206. *)
Definition analysis (fuel : nat) (filters : list (list value)) (kwargs : dict)
  : M value :=
  s ← lift (analysis_setup filters kwargs);
  output ← analysis_loop fuel s;
  if (0 <? length output)%nat then ret (VList output) else ret VNone.

End SecurityCenter.

(** ** Vocabulary of the properties *)

(** The [(startOffset, endOffset)] pair in the query of a request body. *)
Definition offsets (rq : request) : option (Z * Z) :=
  match req_payload rq with
  | JsonBody kwargs =>
      match kwargs !! "query" with
      | Some (VDict q) =>
          match q !! "startOffset", q !! "endOffset" with
          | Some (VInt a), Some (VInt b) => Some (a, b)
          | _, _ => None
          end
      | _ => None
      end
  | _ => None
  end.

(** The request one round of the loop of [analysis] sends. *)
Definition page_request (s : frame) (w : world) : request :=
  APISession.prepare "POST" "analysis" (JsonBody (f_kwargs s)) w.

Definition is_post_analysis (rq : request) : Prop :=
  req_method rq = "POST" ∧ req_path rq = "analysis".

(** A page response: a JSON object with a falsy [error_code] whose
    envelope reports [total] records, ends at offset [stop] and carries
    the list [items] as its results. *)
Inductive is_page (resp : response) (total stop : Z) (items : list value)
  : Prop :=
| IsPage (d r : dict) (c t e : value) :
    resp = Some (VDict d) →
    d !! "error_code" = Some c →
    truthy c = Ok false →
    d !! "response" = Some (VDict r) →
    r !! "totalRecords" = Some t →
    py_int t = Ok total →
    r !! "endOffset" = Some e →
    py_int e = Ok stop →
    r !! "results" = Some (VList items) →
    is_page resp total stop items.

(** A frame of the loop in the mode [page == 'all'] with the default
    transform, about to ask for the records from [start] to [stop]. *)
Definition all_pages_frame (s : frame) (size start stop : Z) : Prop :=
  f_opts s !! "page" = Some (VStr "all") ∧
  f_opts s !! "page_size" = Some (VInt size) ∧
  f_opts s !! "page_obj" = Some (VFunc return_results) ∧
  (∃ pk : dict, f_opts s !! "page_kwargs" = Some (VDict pk)) ∧
  ∃ q : dict,
    f_kwargs s !! "query" = Some (VDict q) ∧
    q !! "startOffset" = Some (VInt start) ∧
    q !! "endOffset" = Some (VInt stop).

(** A frame whose options hold no [generator]. *)
Definition without_generator (s : frame) : frame :=
  {| f_kwargs := f_kwargs s;
     f_opts := delete "generator" (f_opts s);
     f_output := f_output s;
     f_count := f_count s;
     f_total_records := f_total_records s |}.

(** The filter tuple [(field, operator, value)]. *)
Definition filter_tuple (f : value * value * value) : list value :=
  let '(field, operator, val) := f in [field; operator; val].

(** The entry the query is to hold for a filter tuple. *)
Definition filter_dict (query_type : value) (f : value * value * value) : value :=
  let '(field, operator, val) := f in
  VDict {[ "filterName" := field; "operator" := operator; "value" := val;
           "type" := query_type ]}.

(** The query built from a tool, a query type, filter entries and offsets. *)
Definition query_dict (tool ty : value) (fs : list value) (start stop : value)
  : dict :=
  <["endOffset" := stop]>
    (<["startOffset" := start]>
       {[ "tool" := tool; "type" := ty; "filters" := VList fs ]}).

(** The offsets of the first request, as lines 181-186 compute them. *)
Definition first_offsets (page size : value) : outcome (value * value) :=
  if eq_str page "all" then Ok (VInt 0, size)
  else
    start ← py_mul page size;
    next ← py_add page (VInt 1);
    stop ← py_mul next size;
    Ok (start, stop).

(** The keyword arguments let the query be built: a custom query is given,
    or a tool is, with filters of three items at least and a page that is
    ['all'] or an integer next to an integer page size. *)
Definition query_buildable (filters : list (list value)) (kwargs : dict) : Prop :=
  is_Some (kwargs !! "query") ∨
  (is_Some (kwargs !! "tool") ∧
   Forall (λ f, 3 ≤ length f) filters ∧
   (default (VStr "all") (kwargs !! "page") = VStr "all" ∨
    ∃ p s, kwargs !! "page" = Some (VInt p) ∧
           default (VInt 1000) (kwargs !! "page_size") = VInt s)).

(** The URL the constructor builds, line 21. *)
Definition server_url (scheme host : string) (port : Z) : string :=
  scheme +:+ "://" +:+ host +:+ ":" +:+ pretty port.

(** The world in which the constructor makes its first call: warnings
    switched off when [ssl_verify] is false, and a session just built. *)
Definition init_world (ssl_verify : bool) (w : world) : world :=
  {| headers := delete "X-SecurityCenter" (headers w);
     cookies := ∅;
     sent := sent w;
     insecure_warning_off :=
       if ssl_verify then insecure_warning_off w else true |}.

(** What [self.get('system').json()] evaluates to in a world. *)
Definition status_reply (transport : list request -> request -> outcome response)
    (w : world) : outcome value :=
  resp ← transport (sent w) (APISession.prepare "GET" "system" NoBody w);
  resp ← _resp_error_check resp;
  json resp.

(** The decoded status carries the four identity fields in its envelope. *)
Definition has_identity (d : value) (v b l u : value) : Prop :=
  ∃ m r : dict,
    d = VDict m ∧
    m !! "response" = Some (VDict r) ∧
    r !! "version" = Some v ∧
    r !! "buildID" = Some b ∧
    r !! "licenseStatus" = Some l ∧
    r !! "uuid" = Some u.

(** ** Scenarios *)

Definition fresh_world : world :=
  {| headers := ∅; cookies := ∅; sent := []; insecure_warning_off := false |}.

(** A session after a login. *)
Definition logged_in : world :=
  {| headers := {[ "X-SecurityCenter" := VStr "abc123" ]};
     cookies := {[ "TNS_SESSIONID" := VStr "s1" ]};
     sent := [];
     insecure_warning_off := true |}.

Definition no_user_functions (id : nat) (kwargs : dict) : outcome value :=
  Raise TypeError.

(** The filter and keyword arguments of the docstring example. *)
Definition ip_filter : list value :=
  [VStr "ip"; VStr "="; VStr "10.10.0.0/16"].

Definition sumip : dict := {[ "tool" := VStr "sumip" ]}.

(** A frame of the loop with one record accumulated already. *)
Definition one_page : frame :=
  {| f_kwargs := {[ "query" := VDict sumip ]};
     f_opts := {[ "page" := VInt 0; "page_size" := VInt 10;
                  "page_obj" := VFunc return_results;
                  "page_kwargs" := VDict ∅ ]};
     f_output := [VStr "old"];
     f_count := VInt 0;
     f_total_records := VInt 10 |}.

(** A server holding [total] records that answers each query with the
    records between its offsets. *)
Definition paged_server (total : Z) (history : list request) (rq : request)
  : outcome response :=
  match offsets rq with
  | Some (a, b) =>
      Ok (Some (VDict
        {[ "error_code" := VInt 0;
           "response" := VDict
             {[ "totalRecords" := VStr (pretty total);
                "endOffset" := VInt b;
                "results" :=
                  VList (replicate (Z.to_nat (Z.min b total - a)) (VStr "rec")) ]} ]}))
  | None =>
      Ok (Some (VDict
        {[ "error_code" := VInt 0;
           "response" := VDict
             {[ "totalRecords" := VStr (pretty total);
                "results" := VList [VStr "rec"] ]} ]}))
  end.

(** A server that answers [POST token] with a token and refuses everything
    else with an application-level error. *)
Definition refusing_server (history : list request) (rq : request)
  : outcome response :=
  if bool_decide (req_method rq = "POST") then
    Ok (Some (VDict
      {[ "error_code" := VInt 0;
         "response" := VDict {[ "token" := VStr "abc123" ]} ]}))
  else
    Ok (Some (VDict {[ "error_code" := VInt 1; "error_msg" := VStr "bad" ]})).

(** A server that answers every request well. *)
Definition status_server (history : list request) (rq : request)
  : outcome response :=
  Ok (Some (VDict
    {[ "error_code" := VInt 0;
       "response" := VDict
         {[ "version" := VStr "5.6.1"; "buildID" := VStr "201801";
            "licenseStatus" := VStr "Valid"; "uuid" := VStr "u-1";
            "token" := VStr "abc123" ]} ]})).

(** A web server that is no SecurityCenter: its bodies are not JSON. *)
Definition html_server (history : list request) (rq : request)
  : outcome response :=
  Ok None.

Definition host_part (url : string) : string := url.

(** ** Further vocabulary *)

(** The names [analysis] keeps for itself, line 166. *)
Definition option_names : list string :=
  ["page"; "page_size"; "page_obj"; "page_kwargs"; "generator"].

(** The request [login] makes, line 74. *)
Definition token_request (user passwd : value) (w : world) : request :=
  APISession.prepare "POST" "token"
    (JsonBody {[ "username" := user; "password" := passwd ]}) w.

(** The request [upload] makes, line 91. *)
Definition upload_request (fileobj : value) (w : world) : request :=
  APISession.prepare "POST" "file/upload"
    (FilesBody {[ "Filedata" := fileobj ]}) w.

(** A response the hook lets through whose envelope holds [v] under [k]. *)
Definition answers (resp : response) (k : string) (v : value) : Prop :=
  ∃ (d r : dict) (c : value),
    resp = Some (VDict d) ∧
    d !! "error_code" = Some c ∧
    truthy c = Ok false ∧
    d !! "response" = Some (VDict r) ∧
    r !! k = Some v.

(** A page response as a call for a single page reads it: the hook lets
    it through, its envelope reports [total] records and carries the list
    [items] as its results. *)
Definition is_single_page (resp : response) (total : Z) (items : list value)
  : Prop :=
  ∃ (d r : dict) (c t : value),
    resp = Some (VDict d) ∧
    d !! "error_code" = Some c ∧
    truthy c = Ok false ∧
    d !! "response" = Some (VDict r) ∧
    r !! "totalRecords" = Some t ∧
    py_int t = Ok total ∧
    r !! "results" = Some (VList items).

(** The offsets of [n] pages of [size] records, the first at [start]. *)
Fixpoint pages_from (size start : Z) (n : nat) : list (Z * Z) :=
  match n with
  | O => []
  | S n' => (start, start + size)%Z :: pages_from size (start + size) n'
  end.

Definition page_offsets (size : Z) (n : nat) : list (Z * Z) :=
  pages_from size 0 n.

(** The number of requests it takes to page through [total] records,
    [size] at a time: one at least. *)
Definition page_count (total size : Z) : nat :=
  Nat.max 1 (Z.to_nat ((total + size - 1) / size)).

(** What the request bodies of one call of [analysis] have in common:
    no option of [analysis] itself, the query type and the source type of
    the call, no [tool] beside a query built from it, the caller's [tool]
    beside the caller's query, and every other keyword argument as the
    caller gave it. *)
Definition is_analysis_body (kwargs kw : dict) : Prop :=
  (∀ k, k ∈ option_names → kw !! k = None) ∧
  kw !! "type" = Some (default (VStr "vuln") (kwargs !! "type")) ∧
  kw !! "sourceType" = Some (default (VStr "cumulative") (kwargs !! "sourceType")) ∧
  (kwargs !! "query" = None → kw !! "tool" = None) ∧
  (is_Some (kwargs !! "query") → kw !! "tool" = kwargs !! "tool") ∧
  (∀ k, k ∉ option_names → k ≠ "query" → k ≠ "tool" → k ≠ "type" →
        k ≠ "sourceType" → kw !! k = kwargs !! k).

(** ** Further scenarios *)

(** A server that reports ten records and never moves its end offset. *)
Definition stalled_server (history : list request) (rq : request)
  : outcome response :=
  Ok (Some (VDict
    {[ "error_code" := VInt 0;
       "response" := VDict
         {[ "totalRecords" := VStr "10";
            "endOffset" := VStr "0";
            "results" := VList [VStr "rec"] ]} ]})).

(** A transform of the caller that counts and returns no list. *)
Definition counting_functions (id : nat) (kwargs : dict) : outcome value :=
  Ok (VInt (Z.of_nat id)).

(** A server that sends a token in a body without [error_code]. *)
Definition bare_token_server (history : list request) (rq : request)
  : outcome response :=
  Ok (Some (VDict {[ "response" := VDict {[ "token" := VStr "abc123" ]} ]})).

(** A transform of the caller that returns a string, a sequence that is
    no list. *)
Definition str_functions (id : nat) (kwargs : dict) : outcome value :=
  Ok (VStr "ab").

(** The frame [one_page] with a transform of the caller as its
    [page_obj]. *)
Definition one_page_custom : frame :=
  {| f_kwargs := f_kwargs one_page;
     f_opts := <["page_obj" := VFunc (user_func 0)]> (f_opts one_page);
     f_output := f_output one_page;
     f_count := f_count one_page;
     f_total_records := f_total_records one_page |}.

(** * Properties *)

Ltac unfold_py :=
  unfold mbind, mret, outcome_bind, outcome_ret, M_bind, M_ret, obind, bind, ret, lift in *.

Lemma error_check_cases (resp : response) :
  _resp_error_check resp =
    match resp with
    | None => Ok resp
    | Some (VDict d) =>
        match d !! "error_code" with
        | None => Raise (KeyError "error_code")
        | Some c =>
            match truthy c with
            | Ok true =>
                match d !! "error_msg" with
                | Some m => Raise (APIError c m)
                | None => Raise (KeyError "error_msg")
                end
            | Ok false => Ok resp
            | Raise e => Raise e
            | Unmodelled => Unmodelled
            | OutOfFuel => OutOfFuel
            end
        end
    | Some _ => Raise TypeError
    end.
Proof.
  unfold _resp_error_check, except_ValueError, json, subscript, getitem.
  unfold_py.
  destruct resp as [v|]; [|reflexivity].
  destruct v; try reflexivity.
  destruct (d !! "error_code") as [c|]; [|reflexivity].
  destruct (truthy c) as [[]|e| |] eqn:Hc; try reflexivity.
  - destruct (d !! "error_msg"); reflexivity.
  - destruct e; try reflexivity.
    destruct c; simpl in Hc; discriminate.
Qed.

(** C1, amended. The response check raises [APIError(code, msg)] exactly
    when the body decodes to a JSON object holding a truthy [error_code]
    and an [error_msg], and the error carries both; it hands the response
    back unchanged exactly when the body is no JSON or is a JSON object
    holding a falsy [error_code]. (A JSON object without [error_code] is
    not handed back: the lookup raises [KeyError].) *)
Theorem resp_error_check_characterised (resp : response) :
  (∀ code msg,
     _resp_error_check resp = Raise (APIError code msg) ↔
     ∃ d, resp = Some (VDict d) ∧ d !! "error_code" = Some code ∧
          truthy code = Ok true ∧ d !! "error_msg" = Some msg) ∧
  (∀ r,
     _resp_error_check resp = Ok r ↔
     r = resp ∧
     (resp = None ∨
      ∃ d c, resp = Some (VDict d) ∧ d !! "error_code" = Some c ∧
             truthy c = Ok false)).
Proof.
  rewrite error_check_cases. split.
  - intros code msg. split.
    + intros H. destruct resp as [v|]; [|discriminate].
      destruct v; try discriminate.
      destruct (d !! "error_code") as [c|] eqn:Hc; [|discriminate].
      destruct (truthy c) as [[]|e| |] eqn:Ht; try discriminate.
      * destruct (d !! "error_msg") as [m|] eqn:Hm; [|discriminate].
        injection H as -> ->. eauto 10.
      * destruct c; simpl in Ht; discriminate.
    + intros (d & -> & Hc & Ht & Hm). by rewrite Hc, Ht, Hm.
  - intros r. split.
    + intros H. destruct resp as [v|]; [|injection H as <-; auto].
      destruct v; try discriminate.
      destruct (d !! "error_code") as [c|] eqn:Hc; [|discriminate].
      destruct (truthy c) as [[]|e| |] eqn:Ht; try discriminate.
      * destruct (d !! "error_msg"); discriminate.
      * injection H as <-. split; [done|]. right. eauto.
    + intros [-> [->|(d & c & -> & Hc & Ht)]]; [done|]. by rewrite Hc, Ht.
Qed.

(** A JSON body without [error_code] does not pass: the lookup raises. *)
Lemma resp_error_check_missing_code :
  let resp : response := Some (VDict {[ "response" := VDict ∅ ]}) in
  json resp = Ok (VDict {[ "response" := VDict ∅ ]}) ∧
  _resp_error_check resp = Raise (KeyError "error_code") ∧
  _resp_error_check resp ≠ Ok resp.
Proof. split; [reflexivity|]. split; [reflexivity|]. discriminate. Qed.

Lemma if_not_in_lookup (k : string) (v : value) (kwargs : dict) (k' : string) :
  if_not_in k v kwargs !! k' =
    if decide (k = k') then Some (default v (kwargs !! k)) else kwargs !! k'.
Proof.
  unfold if_not_in. destruct (kwargs !! k) as [x|] eqn:Hk; simpl.
  - case_decide; [by subst|done].
  - case_decide; [subst; by rewrite lookup_insert_eq|by rewrite lookup_insert_ne].
Qed.

Lemma fold_move_opt_lookup (ks : list string) (opts kwargs : dict) (k : string) :
  (fold_left move_opt ks (opts, kwargs)).1 !! k =
    (if decide (k ∈ ks)
     then match kwargs !! k with Some v => Some v | None => opts !! k end
     else opts !! k) ∧
  (fold_left move_opt ks (opts, kwargs)).2 !! k =
    (if decide (k ∈ ks) then None else kwargs !! k).
Proof.
  revert opts kwargs. induction ks as [|a ks IH]; intros opts kwargs;
    cbn [fold_left move_opt].
  - rewrite !decide_False by apply not_elem_of_nil. done.
  - destruct (kwargs !! a) as [v|] eqn:Ha.
    + destruct (IH (<[a:=v]> opts) (delete a kwargs)) as [-> ->]. clear IH.
      destruct (decide (k = a)) as [->|Hne].
      * rewrite lookup_delete_eq, lookup_insert_eq, Ha.
        rewrite !(decide_True (P := a ∈ a :: ks)) by left.
        split; by case_decide.
      * rewrite lookup_delete_ne, lookup_insert_ne by done.
        split; repeat case_decide; try done;
          rewrite elem_of_cons in *; intuition congruence.
    + destruct (IH opts kwargs) as [-> ->]. clear IH.
      destruct (decide (k = a)) as [->|Hne].
      * rewrite Ha. rewrite !(decide_True (P := a ∈ a :: ks)) by left.
        split; by case_decide.
      * split; repeat case_decide; try done;
          rewrite elem_of_cons in *; intuition congruence.
Qed.

Lemma defaults_lookup (kwargs : dict) (k : string) :
  defaults kwargs !! k =
    if decide (k = "generator") then (λ _, VFunc return_generator) <$> kwargs !! "generator"
    else if decide (k = "page") then Some (default (VStr "all") (kwargs !! "page"))
    else if decide (k = "page_size") then Some (default (VInt 1000) (kwargs !! "page_size"))
    else if decide (k = "page_obj") then Some (default (VFunc return_results) (kwargs !! "page_obj"))
    else if decide (k = "page_kwargs") then Some (default (VDict ∅) (kwargs !! "page_kwargs"))
    else if decide (k = "type") then Some (default (VStr "vuln") (kwargs !! "type"))
    else if decide (k = "sourceType") then Some (default (VStr "cumulative") (kwargs !! "sourceType"))
    else kwargs !! k.
Proof.
  unfold defaults.
  assert (Hg : ∀ k', k' = "generator" ∨ k' ≠ "generator" →
    if_not_in "sourceType" (VStr "cumulative")
      (if_not_in "type" (VStr "vuln")
        (if_not_in "page_kwargs" (VDict ∅)
          (if_not_in "page_obj" (VFunc return_results)
            (if_not_in "page_size" (VInt 1000)
              (if_not_in "page" (VStr "all") kwargs))))) !! k' =
    if decide (k' = "page") then Some (default (VStr "all") (kwargs !! "page"))
    else if decide (k' = "page_size") then Some (default (VInt 1000) (kwargs !! "page_size"))
    else if decide (k' = "page_obj") then Some (default (VFunc return_results) (kwargs !! "page_obj"))
    else if decide (k' = "page_kwargs") then Some (default (VDict ∅) (kwargs !! "page_kwargs"))
    else if decide (k' = "type") then Some (default (VStr "vuln") (kwargs !! "type"))
    else if decide (k' = "sourceType") then Some (default (VStr "cumulative") (kwargs !! "sourceType"))
    else kwargs !! k').
  { intros k' _. rewrite !if_not_in_lookup.
    repeat case_decide; simplify_eq; try done. }
  set (kw := if_not_in "sourceType" _ _) in *.
  destruct (kw !! "generator") as [g|] eqn:Hkg.
  - rewrite Hg in Hkg by auto. simpl in Hkg.
    destruct (decide (k = "generator")) as [->|Hne].
    + rewrite lookup_insert_eq, Hkg. done.
    + rewrite lookup_insert_ne by done. apply Hg. auto.
  - rewrite Hg in Hkg by auto. simpl in Hkg.
    destruct (decide (k = "generator")) as [->|Hne].
    + rewrite Hg by auto. simpl. rewrite Hkg. done.
    + apply Hg. auto.
Qed.

Lemma split_opts_lookup (kwargs : dict) (k : string) :
  (split_opts kwargs).1 !! k =
    (if decide (k ∈ ["page"; "page_size"; "page_obj"; "page_kwargs"; "generator"])
     then kwargs !! k else None) ∧
  (split_opts kwargs).2 !! k =
    (if decide (k ∈ ["page"; "page_size"; "page_obj"; "page_kwargs"; "generator"])
     then None else kwargs !! k).
Proof.
  unfold split_opts.
  destruct (fold_move_opt_lookup
    ["page"; "page_size"; "page_obj"; "page_kwargs"; "generator"] ∅ kwargs k)
    as [-> ->].
  split; [|done]. case_decide; [|done]. by destruct (kwargs !! k).
Qed.

(** The options and the request body [analysis] starts from. *)
Lemma split_defaults (kwargs opts body : dict) :
  split_opts (defaults kwargs) = (opts, body) →
  opts !! "page" = Some (default (VStr "all") (kwargs !! "page")) ∧
  opts !! "page_size" = Some (default (VInt 1000) (kwargs !! "page_size")) ∧
  opts !! "page_obj" = Some (default (VFunc return_results) (kwargs !! "page_obj")) ∧
  opts !! "page_kwargs" = Some (default (VDict ∅) (kwargs !! "page_kwargs")) ∧
  body !! "query" = kwargs !! "query" ∧
  body !! "tool" = kwargs !! "tool" ∧
  body !! "type" = Some (default (VStr "vuln") (kwargs !! "type")).
Proof.
  intros Hs.
  pose proof (λ k, proj1 (split_opts_lookup (defaults kwargs) k)) as Ho.
  pose proof (λ k, proj2 (split_opts_lookup (defaults kwargs) k)) as Hb.
  rewrite Hs in Ho, Hb. simpl in Ho, Hb.
  rewrite !Ho, !Hb, !defaults_lookup. repeat split; reflexivity.
Qed.

Lemma for_each_filter_entry (kwargs : dict) (ty : value)
    (filters : list (value * value * value)) :
  kwargs !! "type" = Some ty →
  for_each (filter_entry kwargs) (filter_tuple <$> filters) =
    Ok (filter_dict ty <$> filters).
Proof.
  intros Hty. induction filters as [|[[f o] v] filters IH]; [done|].
  cbn [fmap list_fmap for_each filter_tuple]. 
  change (list_fmap _ _ filter_tuple filters) with (filter_tuple <$> filters).
  unfold_py. rewrite IH.
  unfold filter_entry, tuple_get, getitem. unfold_py. simpl. rewrite Hty.
  done.
Qed.

Lemma for_each_filter_entry_ok (ty : value) (filters : list (list value)) :
  Forall (λ f, 3 ≤ length f) filters →
  ∃ fs, ∀ kwargs : dict,
    kwargs !! "type" = Some ty →
    for_each (filter_entry kwargs) filters = Ok fs.
Proof.
  induction 1 as [|f filters Hf _ [fs IH]]; [by eexists|].
  destruct f as [|f0 [|f1 [|f2 f]]]; simpl in Hf; try lia.
  eexists. intros kwargs Hty.
  cbn [for_each]. unfold_py. rewrite (IH kwargs Hty).
  unfold filter_entry, tuple_get, getitem. unfold_py. simpl. rewrite Hty.
  reflexivity.
Qed.

Lemma set_query_dict (kwargs q : dict) (k : string) (v : value) :
  kwargs !! "query" = Some (VDict q) →
  set_query kwargs k v = Ok (<["query" := VDict (<[k := v]> q)]> kwargs).
Proof.
  intros Hq. unfold set_query, getitem. unfold_py. by rewrite Hq.
Qed.

Lemma build_query_built (filters : list (list value)) (opts body : dict)
    (tool ty page size : value) (fs : list value) :
  body !! "query" = None →
  body !! "tool" = Some tool →
  body !! "type" = Some ty →
  for_each (filter_entry body) filters = Ok fs →
  opts !! "page" = Some page →
  opts !! "page_size" = Some size →
  build_query filters opts body =
    (offs ← first_offsets page size;
     Ok (<["query" := VDict (query_dict tool ty fs offs.1 offs.2)]>
           (delete "tool" body))).
Proof.
  intros Hq Htool Hty Hfs Hpage Hsize.
  unfold build_query, first_offsets, getitem. rewrite Hq, Htool, Hty.
  unfold_py. rewrite Hfs, Hpage, Hsize.
  set (q0 := ({[ "tool" := tool; "type" := ty; "filters" := VList fs ]} : dict)).
  assert (Hset : ∀ k v q (m : dict),
    set_query (<["query" := VDict q]> m) k v =
      Ok (<["query" := VDict (<[k := v]> q)]> m)).
  { intros k v q m. rewrite (set_query_dict _ q) by apply lookup_insert_eq.
    by rewrite insert_insert_eq. }
  rewrite (delete_insert_ne body) by done.
  destruct (eq_str page "all").
  - rewrite Hset. cbn match. rewrite Hset. done.
  - destruct (py_mul page size) as [start| | |] eqn:Hstart; try done.
    rewrite Hset. cbn match.
    destruct (py_add page (VInt 1)) as [next| | |]; try done.
    destruct (py_mul next size) as [stop| | |]; by rewrite ?Hset.
Qed.

Lemma analysis_setup_custom (filters : list (list value)) (kwargs : dict) :
  is_Some (kwargs !! "query") →
  analysis_setup filters kwargs =
    Ok {| f_kwargs := (split_opts (defaults kwargs)).2;
          f_opts := (split_opts (defaults kwargs)).1;
          f_output := [];
          f_count := VInt 0;
          f_total_records := default (VInt 1000) (kwargs !! "page_size") |}.
Proof.
  intros [q Hq]. unfold analysis_setup.
  destruct (split_opts (defaults kwargs)) as [opts body] eqn:Hs.
  destruct (split_defaults _ _ _ Hs) as (_ & Hsize & _ & _ & Hbq & _).
  unfold build_query, getitem. rewrite Hbq, Hq. unfold_py. by rewrite Hsize.
Qed.

Lemma analysis_setup_built (filters : list (list value)) (kwargs : dict)
    (tool : value) (fs : list value) :
  kwargs !! "query" = None →
  kwargs !! "tool" = Some tool →
  (∀ body : dict,
     body !! "type" = Some (default (VStr "vuln") (kwargs !! "type")) →
     for_each (filter_entry body) filters = Ok fs) →
  analysis_setup filters kwargs =
    (offs ← first_offsets (default (VStr "all") (kwargs !! "page"))
                          (default (VInt 1000) (kwargs !! "page_size"));
     Ok {| f_kwargs :=
             <["query" := VDict (query_dict tool
                 (default (VStr "vuln") (kwargs !! "type")) fs offs.1 offs.2)]>
               (delete "tool" (split_opts (defaults kwargs)).2);
           f_opts := (split_opts (defaults kwargs)).1;
           f_output := [];
           f_count := VInt 0;
           f_total_records := default (VInt 1000) (kwargs !! "page_size") |}).
Proof.
  intros Hq Htool Hfs. unfold analysis_setup.
  destruct (split_opts (defaults kwargs)) as [opts body] eqn:Hs.
  destruct (split_defaults _ _ _ Hs) as (Hpage & Hsize & _ & _ & Hbq & Hbt & Hty).
  rewrite (build_query_built filters opts body tool _ _ _ fs)
    by (rewrite ?Hbq, ?Hbt; eauto).
  unfold_py. destruct (first_offsets _ _) as [offs| | |]; try done.
  unfold getitem. by rewrite Hsize.
Qed.

Section Loop.

Variable transport : list request -> request -> outcome response.
Variable user_call : nat -> dict -> outcome value.

Lemma analysis_body_eq (s : frame) (w : world) :
  analysis_body transport user_call s w =
    (resp ← (r ← transport (sent w) (page_request s w); _resp_error_check r);
     process_page user_call s resp,
     APISession.record_sent (page_request s w) w).
Proof.
  unfold analysis_body, self_post, APISession.post, APISession._request,
    page_request.
  unfold_py.
  destruct (transport _ _) as [r| | |]; try done.
  by destruct (_resp_error_check r).
Qed.

Lemma analysis_loop_unfold (fuel : nat) (s : frame) :
  analysis_loop transport user_call fuel s =
    (continue ← lift (py_gt (f_total_records s) (f_count s));
     if continue : bool then
       match fuel with
       | O => lift OutOfFuel
       | S fuel' =>
           s' ← analysis_body transport user_call s;
           analysis_loop transport user_call fuel' s'
       end
     else ret (f_output s)).
Proof. by destruct fuel. Qed.

Lemma analysis_loop_stop (fuel : nat) (s : frame) (w : world) :
  py_gt (f_total_records s) (f_count s) = Ok false →
  analysis_loop transport user_call fuel s w = (Ok (f_output s), w).
Proof.
  intros Hgt. rewrite analysis_loop_unfold. unfold_py. by rewrite Hgt.
Qed.

Lemma analysis_loop_step (fuel : nat) (s s' : frame) (w w' : world) :
  py_gt (f_total_records s) (f_count s) = Ok true →
  analysis_body transport user_call s w = (Ok s', w') →
  analysis_loop transport user_call (S fuel) s w =
    analysis_loop transport user_call fuel s' w'.
Proof.
  intros Hgt Hbody. rewrite analysis_loop_unfold. unfold_py.
  by rewrite Hgt, Hbody.
Qed.

Lemma analysis_body_sent (s : frame) (w : world) :
  sent (analysis_body transport user_call s w).2 = sent w ++ [page_request s w].
Proof. by rewrite analysis_body_eq. Qed.

Lemma page_request_is_post (s : frame) (w : world) :
  is_post_analysis (page_request s w).
Proof. done. Qed.

(** The loop only ever adds [POST analysis] requests to those sent. *)
Lemma analysis_loop_sent (fuel : nat) (s : frame) (w : world) :
  ∃ reqs,
    sent (analysis_loop transport user_call fuel s w).2 = sent w ++ reqs ∧
    Forall is_post_analysis reqs.
Proof.
  revert s w. induction fuel as [|fuel IH]; intros s w;
    rewrite analysis_loop_unfold; unfold_py;
    destruct (py_gt _ _) as [[]| | |];
    try (exists []; by rewrite app_nil_r).
  pose proof (analysis_body_sent s w) as Hsent.
  destruct (analysis_body transport user_call s w) as [[s'| | |] w'];
    simpl in *;
    try (exists [page_request s w]; split; [done|];
         by repeat constructor).
  destruct (IH s' w') as (reqs & -> & Hreqs).
  exists (page_request s w :: reqs). rewrite Hsent, <- app_assoc.
  split; [done|]. constructor; [done|done].
Qed.

(** Once the loop is entered with fuel left, a request goes out. *)
Lemma analysis_loop_first (fuel : nat) (s : frame) (w : world) :
  py_gt (f_total_records s) (f_count s) = Ok true →
  ∃ rest,
    sent (analysis_loop transport user_call (S fuel) s w).2 =
      sent w ++ page_request s w :: rest.
Proof.
  intros Hgt. rewrite analysis_loop_unfold. unfold_py. rewrite Hgt.
  pose proof (analysis_body_sent s w) as Hsent.
  destruct (analysis_body transport user_call s w) as [[s'| | |] w'];
    simpl in *; try (by exists []).
  destruct (analysis_loop_sent fuel s' w') as (reqs & -> & _).
  exists reqs. by rewrite Hsent, <- app_assoc.
Qed.

End Loop.

(** Case analysis on the step a computation that succeeded went through. *)
Ltac inv_bind H :=
  match type of H with
  | match ?m with _ => _ end = Ok _ =>
      let E := fresh "E" in destruct m eqn:E; try discriminate H
  end.

Lemma getitem_Ok (d : dict) (k : string) (v : value) :
  getitem d k = Ok v ↔ d !! k = Some v.
Proof.
  unfold getitem. destruct (d !! k); split; intros; simplify_eq; done.
Qed.

Section Page.

Variable user_call : nat -> dict -> outcome value.

(** What a round that completes has read and accumulated. *)
Lemma process_page_Ok (s s' : frame) (resp : response) :
  process_page user_call s resp = Ok s' →
  ∃ (pk : dict) (pobj out page : value) (total : Z),
    f_opts s !! "page_kwargs" = Some (VDict pk) ∧
    f_opts s !! "page_obj" = Some pobj ∧
    call user_call pobj (<["resp" := VResp resp]> pk) = Ok out ∧
    f_output s' =
      f_output s ++ match out with VList items => items | _ => [] end ∧
    f_opts s !! "page" = Some page ∧
    f_total_records s' = VInt total ∧
    (eq_str page "all" = false → f_count s' = VInt total ∧ f_kwargs s' = f_kwargs s).
Proof.
  unfold process_page. unfold_py. intros H.
  inv_bind H. apply getitem_Ok in E.
  inv_bind H. destruct a; try discriminate E0. injection E0 as <-.
  inv_bind H. apply getitem_Ok in E0. rewrite lookup_insert_ne in E0 by done.
  unfold getitem in H. rewrite lookup_insert_eq in H. 
  inv_bind H. inv_bind H. inv_bind H. inv_bind H.
  inv_bind H. apply getitem_Ok in E5. rewrite lookup_insert_ne in E5 by done.
  exists d, a, a0, a4, a3.
  assert (Hout : ∀ l : list value,
    match a0 with VList items => l ++ items | _ => l end =
    l ++ match a0 with VList items => items | _ => [] end).
  { intros l. destruct a0; by rewrite ?app_nil_r. }
  destruct (eq_str a4 "all").
  - repeat inv_bind H. injection H as <-. simpl. rewrite Hout. 
    repeat split; try done.
  - injection H as <-. simpl. rewrite Hout. repeat split; done.
Qed.

End Page.

Lemma is_page_passes (resp : response) (total stop : Z) (items : list value) :
  is_page resp total stop items → _resp_error_check resp = Ok resp.
Proof.
  intros [d r c t e -> Hc Ht _ _ _ _ _ _].
  rewrite error_check_cases. by rewrite Hc, Ht.
Qed.

Lemma all_pages_offsets (s : frame) (w : world) (size a b : Z) :
  all_pages_frame s size a b → offsets (page_request s w) = Some (a, b).
Proof.
  intros (_ & _ & _ & _ & q & Hq & Ha & Hb).
  unfold offsets. simpl. by rewrite Hq, Ha, Hb.
Qed.

Section AllPages.

Variable transport : list request -> request -> outcome response.
Variable user_call : nat -> dict -> outcome value.

Lemma process_page_all (s : frame) (resp : response) (size a b total stop : Z)
    (items : list value) :
  all_pages_frame s size a b →
  is_page resp total stop items →
  ∃ s',
    process_page user_call s resp = Ok s' ∧
    all_pages_frame s' size stop (stop + size) ∧
    f_output s' = f_output s ++ items ∧
    f_count s' = VInt stop ∧
    f_total_records s' = VInt total.
Proof.
  intros (Hpage & Hsize & Hobj & [pk Hpk] & q & Hq & Ha & Hb)
         [d r c t e -> Hc Ht Hr Htot Hitot Hend Hiend Hres].
  unfold process_page, getitem. rewrite Hpk. unfold_py. cbn [setitem].
  rewrite lookup_insert_ne, Hobj by done.
  rewrite lookup_insert_eq. cbn [call].
  unfold getitem, envelope, subscript, getitem. unfold_py.
  rewrite lookup_insert_eq. cbn [method_json json].
  rewrite Hr, Hres, Htot, Hitot, Hend, Hiend.
  rewrite (lookup_insert_ne (f_opts s)), Hpage by done. cbn [eq_str].
  rewrite bool_decide_eq_true_2 by done.
  rewrite (set_query_dict _ q) by done.
  rewrite (lookup_insert_ne (f_opts s)), Hsize by done. cbn [py_add].
  rewrite (set_query_dict _ (<["startOffset" := VInt stop]> q))
    by apply lookup_insert_eq.
  rewrite insert_insert_eq.
  eexists. split; [reflexivity|]. split; [|done].
  unfold all_pages_frame.
  cbn [f_opts f_kwargs f_output f_count f_total_records].
  rewrite !(lookup_insert_ne (f_opts s)) by done.
  rewrite !lookup_insert_eq.
  split_and!; try done; [by eexists|].
  eexists. split; [done|].
  by rewrite lookup_insert_eq, lookup_insert_ne, lookup_insert_eq.
Qed.

Lemma analysis_body_all (s : frame) (w : world) (resp : response)
    (size a b total stop : Z) (items : list value) :
  all_pages_frame s size a b →
  transport (sent w) (page_request s w) = Ok resp →
  is_page resp total stop items →
  ∃ s',
    analysis_body transport user_call s w =
      (Ok s', APISession.record_sent (page_request s w) w) ∧
    all_pages_frame s' size stop (stop + size) ∧
    f_output s' = f_output s ++ items ∧
    f_count s' = VInt stop ∧
    f_total_records s' = VInt total.
Proof.
  intros Hs Ht Hp.
  destruct (process_page_all s resp size a b total stop items Hs Hp)
    as (s' & Hs' & Hrest).
  exists s'. split; [|done].
  rewrite analysis_body_eq. unfold_py.
  by rewrite Ht, (is_page_passes _ _ _ _ Hp), Hs'.
Qed.

End AllPages.

Lemma first_offsets_all (size : value) :
  first_offsets (VStr "all") size = Ok (VInt 0, size).
Proof. reflexivity. Qed.

Section AllPagesRun.

Variable transport : list request -> request -> outcome response.
Variable user_call : nat -> dict -> outcome value.


End AllPagesRun.

Lemma first_offsets_page (p s : Z) :
  first_offsets (VInt p) (VInt s) = Ok (VInt (p * s), VInt ((p + 1) * s)).
Proof. reflexivity. Qed.

(** *** Computations that come back *)

Lemma outcome_bind_returns {A B : Type} (m : outcome A) (k : A → outcome B) :
  m ≠ OutOfFuel → (∀ a, k a ≠ OutOfFuel) → (m ≫= k) ≠ OutOfFuel.
Proof. destruct m; simpl; auto. Qed.

Lemma getitem_returns (d : dict) (k : string) : getitem d k ≠ OutOfFuel.
Proof. unfold getitem. by destruct (d !! k). Qed.

Lemma subscript_returns (v : value) (k : string) : subscript v k ≠ OutOfFuel.
Proof. destruct v; try done. apply getitem_returns. Qed.

Lemma setitem_returns (v : value) (k : string) (x : value) :
  setitem v k x ≠ OutOfFuel.
Proof. by destruct v. Qed.

Lemma json_returns (r : response) : json r ≠ OutOfFuel.
Proof. by destruct r. Qed.

Lemma envelope_returns (d : value) (k : string) : envelope d k ≠ OutOfFuel.
Proof.
  unfold envelope. apply outcome_bind_returns; auto using subscript_returns.
Qed.

Lemma py_int_returns (v : value) : py_int v ≠ OutOfFuel.
Proof. destruct v; try done. simpl. by destruct (parse_decimal s). Qed.

Lemma py_add_returns (a b : value) : py_add a b ≠ OutOfFuel.
Proof. by destruct a, b. Qed.

Lemma truthy_returns (v : value) : truthy v ≠ OutOfFuel.
Proof. by destruct v. Qed.

Lemma set_query_returns (kwargs : dict) (k : string) (v : value) :
  set_query kwargs k v ≠ OutOfFuel.
Proof.
  unfold set_query. apply outcome_bind_returns; [apply getitem_returns|].
  intros q. apply outcome_bind_returns; [apply setitem_returns|done].
Qed.

Lemma resp_error_check_returns (resp : response) :
  _resp_error_check resp ≠ OutOfFuel.
Proof.
  rewrite error_check_cases. destruct resp as [[]|]; try done.
  destruct (d !! "error_code") as [c|]; [|done].
  pose proof (truthy_returns c).
  destruct (truthy c) as [[]| | |]; try done.
  by destruct (d !! "error_msg").
Qed.

Lemma method_json_returns (v : value) : method_json v ≠ OutOfFuel.
Proof. destruct v; try done. apply json_returns. Qed.

Create HintDb returns.

#[local] Hint Resolve method_json_returns getitem_returns subscript_returns setitem_returns
  json_returns envelope_returns py_int_returns py_add_returns
  set_query_returns : returns.

Ltac returns_tac :=
  repeat first
    [ progress cbv zeta
    | apply outcome_bind_returns; [solve [auto with returns]|intros ?]
    | match goal with |- (if ?b then _ else _) ≠ _ => destruct b end
    | done ].

Section Runs.

Variable transport : list request -> request -> outcome response.
Variable user_call : nat -> dict -> outcome value.

Lemma call_returns (f : value) (kwargs : dict) :
  (∀ id kw, user_call id kw ≠ OutOfFuel) →
  call user_call f kwargs ≠ OutOfFuel.
Proof.
  intros Hu. destruct f as [| | | | | |[]| |]; try done; [|apply Hu].
  cbn [call]. returns_tac. auto with returns.
Qed.

Lemma process_page_returns (s : frame) (resp : response) :
  (∀ id kw, user_call id kw ≠ OutOfFuel) →
  process_page user_call s resp ≠ OutOfFuel.
Proof.
  intros Hu. unfold process_page.
  repeat first
    [ progress returns_tac
    | apply outcome_bind_returns;
      [ first [ by apply call_returns
              | by match goal with
                   | |- match ?v with _ => _ end ≠ _ => destruct v
                   end ]
      | intros ? ] ].
Qed.

(** With a page that is not ['all'] the loop runs its body once. *)
Lemma analysis_loop_single (fuel : nat) (s : frame) (w : world) (page : value) :
  (∀ history rq, transport history rq ≠ OutOfFuel) →
  (∀ id kw, user_call id kw ≠ OutOfFuel) →
  f_opts s !! "page" = Some page →
  eq_str page "all" = false →
  py_gt (f_total_records s) (f_count s) = Ok true →
  (analysis_loop transport user_call (S fuel) s w).1 ≠ OutOfFuel ∧
  (analysis_loop transport user_call (S fuel) s w).2 =
    APISession.record_sent (page_request s w) w.
Proof.
  intros Htr Hu Hpage Hall Hgt. rewrite analysis_loop_unfold. unfold_py.
  rewrite Hgt. rewrite analysis_body_eq. unfold_py.
  pose proof (Htr (sent w) (page_request s w)) as Htr'.
  destruct (transport _ _) as [r| | |]; try done.
  pose proof (resp_error_check_returns r) as Hr.
  destruct (_resp_error_check r) as [resp| | |]; try done.
  pose proof (process_page_returns s resp Hu) as Hp.
  destruct (process_page user_call s resp) as [s'| | |] eqn:Hs'; try done.
  destruct (process_page_Ok user_call s s' resp Hs')
    as (pk & pobj & out & page' & total & _ & _ & _ & _ & Hp' & Ht & Hc).
  rewrite Hpage in Hp'. injection Hp' as <-.
  destruct (Hc Hall) as [Hc' _].
  rewrite analysis_loop_stop; [done|].
  rewrite Ht, Hc'. cbn [py_gt]. by rewrite Z.ltb_irrefl.
Qed.

End Runs.

Section Claims.

Variable transport : list request -> request -> outcome response.
Variable user_call : nat -> dict -> outcome value.

Lemma analysis_world (fuel : nat) (filters : list (list value)) (kwargs : dict)
    (w : world) (s : frame) :
  analysis_setup filters kwargs = Ok s →
  (analysis transport user_call fuel filters kwargs w).2 =
    (analysis_loop transport user_call fuel s w).2 ∧
  ((analysis transport user_call fuel filters kwargs w).1 = OutOfFuel →
   (analysis_loop transport user_call fuel s w).1 = OutOfFuel).
Proof.
  intros Hs. unfold analysis. unfold_py. rewrite Hs.
  destruct (analysis_loop transport user_call fuel s w) as [[out| | |] w'];
    try done.
  by destruct (0 <? length out).
Qed.

(** C5. Without a custom query body, the query built from a sequence of
    filter tuples lists one entry per tuple, in the order given, each made
    of the tuple's field, operator and value and of the one query type of
    the call. *)
Theorem analysis_setup_filters (filters : list (value * value * value))
    (kwargs : dict) :
  kwargs !! "query" = None →
  is_Some (kwargs !! "tool") →
  (default (VStr "all") (kwargs !! "page") = VStr "all" ∨
   ∃ p s, kwargs !! "page" = Some (VInt p) ∧
          default (VInt 1000) (kwargs !! "page_size") = VInt s) →
  ∃ s q,
    analysis_setup (filter_tuple <$> filters) kwargs = Ok s ∧
    f_kwargs s !! "query" = Some (VDict q) ∧
    q !! "filters" =
      Some (VList (filter_dict (default (VStr "vuln") (kwargs !! "type"))
                     <$> filters)).
Proof.
  intros Hquery [tool Htool] Hpaging.
  pose proof (analysis_setup_built (filter_tuple <$> filters) kwargs tool _
                Hquery Htool
                (λ body H, for_each_filter_entry body _ filters H)) as Hsetup.
  assert (∃ offs,
    first_offsets (default (VStr "all") (kwargs !! "page"))
                  (default (VInt 1000) (kwargs !! "page_size")) = Ok offs)
    as [offs Hoffs].
  { destruct Hpaging as [->|(p & s & -> & ->)]; by eexists. }
  rewrite Hoffs in Hsetup. unfold_py.
  eexists _, _. split; [exact Hsetup|]. cbn [f_kwargs].
  rewrite lookup_insert_eq. split; [done|]. unfold query_dict.
  rewrite !lookup_insert_ne by done. by rewrite lookup_singleton_eq.
Qed.

(** C6, amended. In a round of the loop that completes, the items of a
    transform output that is a list are appended, in order, to the
    accumulated output; an output that is no list, another sequence such
    as a string included, leaves the accumulated output as it was. *)
Theorem analysis_body_accumulates (s s' : frame) (w w' : world) :
  analysis_body transport user_call s w = (Ok s', w') →
  ∃ resp pk pobj out,
    self_post transport "analysis" (JsonBody (f_kwargs s)) w = (Ok resp, w') ∧
    f_opts s !! "page_kwargs" = Some (VDict pk) ∧
    f_opts s !! "page_obj" = Some pobj ∧
    call user_call pobj (<["resp" := VResp resp]> pk) = Ok out ∧
    ((∃ items, out = VList items ∧ f_output s' = f_output s ++ items) ∨
     ((∀ items, out ≠ VList items) ∧ f_output s' = f_output s)).
Proof.
  unfold analysis_body. unfold_py. intros H.
  destruct (self_post transport "analysis" _ w) as [[resp| | |] w1];
    try discriminate H.
  destruct (process_page user_call s resp) as [s1| | |] eqn:Hs1;
    try discriminate H.
  injection H as -> ->.
  destruct (process_page_Ok user_call s s' resp Hs1)
    as (pk & pobj & out & page & total & Hpk & Hobj & Hcall & Hout & _).
  exists resp, pk, pobj, out. split_and!; try done.
  destruct out; try (right; split; [done|]; by rewrite Hout, app_nil_r).
  left. by eexists.
Qed.

(** C7. What [analysis] gives back is decided by the output the loop
    ends with: whenever the loop ends, [analysis] returns, with the
    accumulated output when it is not empty and with [None] when it is
    empty; and every value [analysis] returns is come by in this way, so it
    never returns an empty list. *)
Theorem analysis_returns (fuel : nat) (filters : list (list value))
    (kwargs : dict) (w : world) :
  (∀ s output w',
     analysis_setup filters kwargs = Ok s →
     analysis_loop transport user_call fuel s w = (Ok output, w') →
     analysis transport user_call fuel filters kwargs w =
       (Ok (match output with [] => VNone | _ :: _ => VList output end), w')) ∧
  (∀ v w',
     analysis transport user_call fuel filters kwargs w = (Ok v, w') →
     ∃ s output,
       analysis_setup filters kwargs = Ok s ∧
       analysis_loop transport user_call fuel s w = (Ok output, w') ∧
       ((output ≠ [] ∧ v = VList output) ∨ (output = [] ∧ v = VNone)) ∧
       v ≠ VList []).
Proof.
  unfold analysis. unfold_py. split.
  - intros s output w' Hs Hl. rewrite Hs, Hl. by destruct output.
  - intros v w' H.
    destruct (analysis_setup filters kwargs) as [s| | |] eqn:Hs;
      try discriminate H.
    destruct (analysis_loop transport user_call fuel s w) as [[out| | |] w1]
      eqn:Hl; try discriminate H.
    exists s, out. split; [done|].
    destruct out as [|x out]; simpl in H; injection H as <- <-.
    + split; [done|]. split; [by right|done].
    + split; [done|]. split; [by left|done].
Qed.

(** C9, amended. With a positive page size (the default 1000 included)
    and keyword arguments the query can be built from, [analysis] sends a
    [POST analysis] request before anything the server says is looked at.
    (Without them it raises while it builds the query and sends
    nothing.) *)
Theorem analysis_posts_first (fuel : nat) (filters : list (list value))
    (kwargs : dict) (w : world) (s : Z) :
  default (VInt 1000) (kwargs !! "page_size") = VInt s →
  (0 < s)%Z →
  query_buildable filters kwargs →
  ∃ rq rest,
    sent (analysis transport user_call (S fuel) filters kwargs w).2 =
      sent w ++ rq :: rest ∧
    is_post_analysis rq.
Proof.
  intros Hsize Hpos Hbuild.
  assert (∃ s0, analysis_setup filters kwargs = Ok s0 ∧
                f_total_records s0 = VInt s ∧ f_count s0 = VInt 0)
    as (s0 & Hsetup & Ht & Hc).
  { destruct Hbuild as [Hq|(Htool & Hfilters & Hpaging)].
    - rewrite (analysis_setup_custom _ _ Hq). by eexists.
    - destruct (kwargs !! "query") as [q|] eqn:Hq.
      { rewrite (analysis_setup_custom filters kwargs) by by rewrite Hq.
        by eexists. }
      destruct Htool as [tool Htool].
      destruct (for_each_filter_entry_ok
                  (default (VStr "vuln") (kwargs !! "type")) filters Hfilters)
        as [fs Hfs].
      rewrite (analysis_setup_built filters kwargs tool fs Hq Htool Hfs).
      rewrite Hsize.
      destruct Hpaging as [->|(p & s1 & -> & Hs1)].
      + rewrite first_offsets_all. by eexists.
      + rewrite Hsize in Hs1. injection Hs1 as <-.
        change (default (VStr "all") (Some (VInt p))) with (VInt p).
        rewrite first_offsets_page. by eexists. }
  destruct (analysis_world (S fuel) filters kwargs w s0 Hsetup) as [-> _].
  destruct (analysis_loop_first transport user_call fuel s0 w) as [rest Hrest].
  { rewrite Ht, Hc. cbn [py_gt]. by rewrite (proj2 (Z.ltb_lt 0 s) Hpos). }
  by exists (page_request s0 w), rest.
Qed.

End Claims.

(** *** The [generator] option *)

Lemma outcome_fmap_bind {A B C : Type} (f : B → C) (m : outcome A)
    (k : A → outcome B) :
  f <$> (m ≫= k) = m ≫= (λ a, f <$> k a).
Proof. by destruct m. Qed.

Lemma outcome_bind_ext {A B : Type} (m : outcome A) (k1 k2 : A → outcome B) :
  (∀ a, k1 a = k2 a) → m ≫= k1 = m ≫= k2.
Proof. intros H. destruct m; simpl; auto. Qed.

Lemma getitem_delete_ne (d : dict) (k k' : string) :
  k ≠ k' → getitem (delete k d) k' = getitem d k'.
Proof. intros H. unfold getitem. by rewrite lookup_delete_ne. Qed.

Lemma defaults_delete_generator (kwargs : dict) (k : string) :
  k ≠ "generator" →
  defaults (delete "generator" kwargs) !! k = defaults kwargs !! k.
Proof.
  intros Hk. rewrite !defaults_lookup.
  rewrite !(decide_False (P := k = "generator")) by done.
  by rewrite !(lookup_delete_ne kwargs) by done.
Qed.

Lemma split_defaults_delete_generator (kwargs : dict) :
  split_opts (defaults (delete "generator" kwargs)) =
    (delete "generator" (split_opts (defaults kwargs)).1,
     (split_opts (defaults kwargs)).2).
Proof.
  rewrite (surjective_pairing (split_opts (defaults (delete _ _)))).
  f_equal; apply map_eq; intros k.
  - rewrite (proj1 (split_opts_lookup _ k)).
    destruct (decide (k = "generator")) as [->|Hk].
    + rewrite lookup_delete_eq, decide_True by set_solver.
      rewrite defaults_lookup, decide_True by done.
      by rewrite lookup_delete_eq.
    + rewrite lookup_delete_ne by done.
      rewrite (proj1 (split_opts_lookup _ k)).
      by rewrite defaults_delete_generator.
  - rewrite !(proj2 (split_opts_lookup _ k)).
    case_decide; [done|].
    apply defaults_delete_generator. set_solver.
Qed.

Lemma build_query_delete_generator (filters : list (list value))
    (opts body : dict) :
  build_query filters (delete "generator" opts) body =
    build_query filters opts body.
Proof.
  unfold build_query. by rewrite !getitem_delete_ne.
Qed.

Lemma analysis_setup_delete_generator (filters : list (list value))
    (kwargs : dict) :
  analysis_setup filters (delete "generator" kwargs) =
    without_generator <$> analysis_setup filters kwargs.
Proof.
  unfold analysis_setup. rewrite split_defaults_delete_generator.
  destruct (split_opts (defaults kwargs)) as [opts body]. cbn [fst snd].
  rewrite build_query_delete_generator, getitem_delete_ne by done.
  destruct (build_query filters opts body) as [kw| | |]; try done.
  cbn. unfold getitem. by destruct (opts !! "page_size").
Qed.

Section Generator.

Variable transport : list request -> request -> outcome response.
Variable user_call : nat -> dict -> outcome value.

Lemma process_page_without_generator (s : frame) (resp : response) :
  process_page user_call (without_generator s) resp =
    without_generator <$> process_page user_call s resp.
Proof.
  unfold process_page, without_generator.
  cbn [f_kwargs f_opts f_output f_count f_total_records].
  rewrite getitem_delete_ne by done.
  rewrite outcome_fmap_bind. apply outcome_bind_ext. intros pk.
  rewrite outcome_fmap_bind. apply outcome_bind_ext. intros pk'.
  cbv zeta. rewrite <- (delete_insert_ne (f_opts s)) by done.
  repeat first
    [ rewrite getitem_delete_ne by done
    | rewrite outcome_fmap_bind; apply outcome_bind_ext; intros ?
    | match goal with |- (if ?b then _ else _) = _ => destruct b end
    | reflexivity ].
Qed.

Lemma analysis_body_without_generator (s : frame) (w : world) :
  analysis_body transport user_call (without_generator s) w =
    (without_generator <$> (analysis_body transport user_call s w).1,
     (analysis_body transport user_call s w).2).
Proof.
  rewrite !analysis_body_eq. cbn [fst snd].
  change (page_request (without_generator s) w) with (page_request s w).
  f_equal. rewrite outcome_fmap_bind. apply outcome_bind_ext. intros resp.
  apply process_page_without_generator.
Qed.

Lemma analysis_loop_without_generator (fuel : nat) (s : frame) (w : world) :
  analysis_loop transport user_call fuel (without_generator s) w =
    analysis_loop transport user_call fuel s w.
Proof.
  revert s w. induction fuel as [|fuel IH]; intros s w;
    rewrite !(analysis_loop_unfold _ _ _ s),
            !(analysis_loop_unfold _ _ _ (without_generator s));
    unfold_py; cbn [without_generator f_total_records f_count f_output];
    destruct (py_gt _ _) as [[]| | |]; try done.
  rewrite analysis_body_without_generator.
  destruct (analysis_body transport user_call s w) as [[s'| | |] w'];
    try done.
  apply IH.
Qed.

(** C10. The [generator] keyword changes nothing that can be seen:
    with it or without it, [analysis] sends the same requests, accumulates
    the same records and returns the same value. *)
Theorem analysis_generator_ignored (fuel : nat) (filters : list (list value))
    (kwargs : dict) (w : world) :
  analysis transport user_call fuel filters kwargs w =
    analysis transport user_call fuel filters (delete "generator" kwargs) w ∧
  (s ← lift (analysis_setup filters kwargs);
   analysis_loop transport user_call fuel s) w =
    (s ← lift (analysis_setup filters (delete "generator" kwargs));
     analysis_loop transport user_call fuel s) w.
Proof.
  assert (Hloop :
    (s ← lift (analysis_setup filters kwargs);
     analysis_loop transport user_call fuel s) w =
    (s ← lift (analysis_setup filters (delete "generator" kwargs));
     analysis_loop transport user_call fuel s) w).
  { unfold_py. rewrite analysis_setup_delete_generator.
    destruct (analysis_setup filters kwargs) as [s| | |]; try done.
    cbn. by rewrite analysis_loop_without_generator. }
  split; [|done].
  unfold analysis. unfold_py. rewrite analysis_setup_delete_generator.
  destruct (analysis_setup filters kwargs) as [s| | |]; try done.
  cbn. by rewrite analysis_loop_without_generator.
Qed.

End Generator.

(** *** The constructor and the session *)

Lemma envelope_Ok (d x : value) (k : string) :
  envelope d k = Ok x ↔
  ∃ m r : dict, d = VDict m ∧ m !! "response" = Some (VDict r) ∧ r !! k = Some x.
Proof.
  unfold envelope, subscript, getitem. unfold_py. split.
  - intros H. destruct d as [| | | | |m| | |]; try discriminate H.
    destruct (m !! "response") as [[| | | | |r| | |]|] eqn:Hm;
      try discriminate H.
    destruct (r !! k) as [y|] eqn:Hr; [|discriminate H].
    injection H as <-. eauto.
  - intros (m & r & -> & Hm & Hr). by rewrite Hm, Hr.
Qed.

Lemma envelope_Raise (d : value) (k : string) :
  (∃ x, envelope d k = Ok x) ∨ (∃ e, envelope d k = Raise e).
Proof.
  unfold envelope, subscript, getitem. unfold_py.
  destruct d as [| | | | |m| | |]; eauto.
  destruct (m !! "response") as [[| | | | |r| | |]|]; eauto.
  destruct (r !! k); eauto.
Qed.

Section Session.

Variable transport : list request -> request -> outcome response.
Variable host_of_url : string -> string.

(** C2. The code does not keep the promise of the claim. Whenever the
    [DELETE] call raises, [logout] raises the same exception and
    [_build_session] is not reached: headers and cookies are those of
    before. This is what happens when the JSON body of the answer holds a
    truthy [error_code] next to an [error_msg]: the response hook raises
    [APIError] inside [self.delete], and a token stored before is still
    in the headers after [logout]. *)
Theorem logout_skips_rebuild_on_error (w : world) :
  (∀ e w', logout transport w = (Raise e, w') →
           (self_delete transport "token" w).1 = Raise e ∧
           headers w' = headers w ∧ cookies w' = cookies w) ∧
  (∀ d code msg token,
     headers w !! "X-SecurityCenter" = Some token →
     transport (sent w) (APISession.prepare "DELETE" "token" NoBody w) =
       Ok (Some (VDict d)) →
     d !! "error_code" = Some code →
     truthy code = Ok true →
     d !! "error_msg" = Some msg →
     (logout transport w).1 = Raise (APIError code msg) ∧
     headers (logout transport w).2 !! "X-SecurityCenter" = Some token ∧
     headers (logout transport w).2 = headers w ∧
     cookies (logout transport w).2 = cookies w).
Proof.
  unfold logout, self_delete, APISession.delete, APISession._request,
    APISession._build_session.
  unfold_py. split.
  - intros e w' H.
    destruct (transport _ _) as [r| | |]; try discriminate H.
    + destruct (_resp_error_check r); try discriminate H.
      by injection H as <- <-.
    + by injection H as <- <-.
  - intros d code msg token Htok Ht Hc Htr Hm. rewrite Ht.
    rewrite error_check_cases, Hc, Htr, Hm. done.
Qed.

End Session.

Section Constructor.

Variable transport : list request -> request -> outcome response.
Variable host_of_url : string -> string.

Lemma init_eq (host : string) (port : Z) (ssl_verify : bool)
    (scheme : string) (retries backoff : value) (w : world) :
  __init__ transport host_of_url host port ssl_verify scheme retries backoff w =
    (match status_reply transport (init_world ssl_verify w) with
     | Ok d =>
         except_all_raise
           (version ← envelope d "version";
            build_id ← envelope d "buildID";
            license ← envelope d "licenseStatus";
            uuid ← envelope d "uuid";
            Ok {| base :=
                    {| APISession.URL := server_url scheme host port;
                       APISession.host :=
                         host_of_url (server_url scheme host port) |};
                  version := version; build_id := build_id;
                  license := license; uuid := uuid |})
           (ServerError "Invalid SecurityCenter Instance")
     | Raise _ =>
         Raise (ServerError
                  ("No SecurityCenter Instance at " +:+
                   host_of_url (server_url scheme host port)))
     | Unmodelled => Unmodelled
     | OutOfFuel => OutOfFuel
     end,
     APISession.record_sent
       (APISession.prepare "GET" "system" NoBody (init_world ssl_verify w))
       (init_world ssl_verify w)).
Proof.
  unfold __init__, status_reply, try_except_raise, self_get,
    APISession.get, APISession._request, APISession.__init__,
    APISession._build_session, disable_warnings.
  fold (server_url scheme host port). unfold_py. unfold init_world.
  destruct ssl_verify;
    cbn [negb fst snd headers cookies sent insecure_warning_off];
    (destruct (transport _ _) as [resp| | |]; try done;
     destruct (_resp_error_check resp) as [resp'| | |]; try done;
     destruct (json resp') as [d| | |]; try done; cbn;
     by destruct (match envelope d "version" with Ok _ => _ | _ => _ end)).
Qed.

(** C8, amended. The constructor fails with [ServerError('No
    SecurityCenter Instance at <self.host>')] when the status call or the
    decoding of its body raises, whatever raised; it fails with
    [ServerError('Invalid SecurityCenter Instance')], the same class with
    another message, when the body decodes but lacks one of
    [version], [buildID], [licenseStatus], [uuid] in its [response]
    envelope; otherwise it keeps the four fields. *)
Theorem init_outcomes (host : string) (port : Z) (ssl_verify : bool)
    (scheme : string) (retries backoff : value) (w : world) :
  let url := server_url scheme host port in
  let w0 := init_world ssl_verify w in
  let r := __init__ transport host_of_url host port ssl_verify scheme
             retries backoff w in
  r.2 = APISession.record_sent (APISession.prepare "GET" "system" NoBody w0) w0 ∧
  (∀ e, status_reply transport w0 = Raise e →
        r.1 = Raise (ServerError
                       ("No SecurityCenter Instance at " +:+ host_of_url url))) ∧
  (∀ d, status_reply transport w0 = Ok d →
        (∀ v b l u, ¬ has_identity d v b l u) →
        r.1 = Raise (ServerError "Invalid SecurityCenter Instance")) ∧
  (∀ d v b l u,
     status_reply transport w0 = Ok d →
     has_identity d v b l u →
     r.1 = Ok {| base := {| APISession.URL := url;
                            APISession.host := host_of_url url |};
                 version := v; build_id := b; license := l; uuid := u |}).
Proof.
  intros url w0 r. subst r. rewrite init_eq. fold url w0.
  cbn [fst snd]. split_and!; [done|..].
  - by intros e ->.
  - intros d -> Hno. unfold_py.
    destruct (envelope_Raise d "version") as [[v Hv]|[e ->]]; [|done].
    destruct (envelope_Raise d "buildID") as [[b Hb]|[e Hb]];
      [|by rewrite Hv, Hb].
    destruct (envelope_Raise d "licenseStatus") as [[l Hl]|[e Hl]];
      [|by rewrite Hv, Hb, Hl].
    destruct (envelope_Raise d "uuid") as [[u Hu]|[e Hu]];
      [|by rewrite Hv, Hb, Hl, Hu].
    exfalso. apply (Hno v b l u).
    apply envelope_Ok in Hv as (m & r1 & -> & Hm & Hv).
    apply envelope_Ok in Hb as (m2 & r2 & [= <-] & Hm2 & Hb).
    apply envelope_Ok in Hl as (m3 & r3 & [= <-] & Hm3 & Hl).
    apply envelope_Ok in Hu as (m4 & r4 & [= <-] & Hm4 & Hu).
    simplify_eq. by exists m, r1.
  - intros d v b l u -> (m & r1 & -> & Hm & Hv & Hb & Hl & Hu). unfold_py.
    rewrite (proj2 (envelope_Ok _ v "version")) by eauto.
    rewrite (proj2 (envelope_Ok _ b "buildID")) by eauto.
    rewrite (proj2 (envelope_Ok _ l "licenseStatus")) by eauto.
    rewrite (proj2 (envelope_Ok _ u "uuid")) by eauto.
    done.
Qed.

End Constructor.

(** ** The scenarios, run *)


Lemma paged_server_returns (total : Z) (history : list request) (rq : request) :
  paged_server total history rq ≠ OutOfFuel.
Proof. unfold paged_server. by destruct (offsets rq) as [[a b]|]. Qed.

Lemma resp_error_check_witness :
  _resp_error_check
    (Some (VDict {[ "error_code" := VInt 1; "error_msg" := VStr "bad" ]})) =
    Raise (APIError (VInt 1) (VStr "bad")) ∧
  _resp_error_check
    (Some (VDict {[ "error_code" := VInt 0; "error_msg" := VNone ]})) =
    Ok (Some (VDict {[ "error_code" := VInt 0; "error_msg" := VNone ]})).
Proof.
  split.
  - apply (proj1 (resp_error_check_characterised _)).
    eexists. split_and!; reflexivity.
  - apply (proj2 (resp_error_check_characterised _)).
    split; [reflexivity|]. right. eexists _, _. split_and!; reflexivity.
Defined.

Lemma logout_skips_rebuild_on_error_witness :
  (logout refusing_server logged_in).1 =
    Raise (APIError (VInt 1) (VStr "bad")) ∧
  headers (logout refusing_server logged_in).2 !! "X-SecurityCenter" =
    Some (VStr "abc123") ∧
  headers (logout refusing_server logged_in).2 = headers logged_in ∧
  cookies (logout refusing_server logged_in).2 = cookies logged_in.
Proof.
  eapply (proj2 (logout_skips_rebuild_on_error refusing_server logged_in));
    reflexivity.
Defined.

Lemma logout_keeps_token_on_error :
  let w := (login refusing_server (VStr "admin") (VStr "secret") fresh_world).2 in
  headers w !! "X-SecurityCenter" = Some (VStr "abc123") ∧
  (logout refusing_server w).1 = Raise (APIError (VInt 1) (VStr "bad")) ∧
  headers (logout refusing_server w).2 !! "X-SecurityCenter" =
    Some (VStr "abc123").
Proof. vm_compute. split_and!; reflexivity. Qed.


(** With a custom query body the one request carries the caller's query
    and no offsets of [analysis]; without a tool, or with a page size of
    zero, no request is made at all. *)
Lemma analysis_single_page_custom_query :
  let kwargs : dict :=
    {[ "query" := VDict sumip; "page" := VInt 2; "page_size" := VInt 500 ]} in
  let r := analysis (paged_server 2500) no_user_functions 1 [] kwargs
             fresh_world in
  let no_tool : dict := {[ "page" := VInt 2; "page_size" := VInt 500 ]} in
  let no_size : dict :=
    {[ "tool" := VStr "sumip"; "page" := VInt 2; "page_size" := VInt 0 ]} in
  r.1 = Ok (VList [VStr "rec"]) ∧
  offsets <$> sent r.2 = [None] ∧
  offsets <$> sent r.2 ≠ [Some (1000, 1500)%Z] ∧
  analysis (paged_server 2500) no_user_functions 1 [] no_tool fresh_world =
    (Raise (KeyError "tool"), fresh_world) ∧
  analysis (paged_server 2500) no_user_functions 1 [] no_size fresh_world =
    (Ok VNone, fresh_world).
Proof.
  vm_compute. split_and!; [reflexivity|reflexivity|discriminate|..];
    reflexivity.
Qed.

Lemma analysis_setup_filters_witness :
  ∃ s q,
    analysis_setup
      (filter_tuple <$> [(VStr "ip", VStr "=", VStr "10.10.0.0/16");
                         (VStr "severity", VStr "=", VStr "4")])
      sumip = Ok s ∧
    f_kwargs s !! "query" = Some (VDict q) ∧
    q !! "filters" =
      Some (VList (filter_dict (default (VStr "vuln") (sumip !! "type")) <$>
                     [(VStr "ip", VStr "=", VStr "10.10.0.0/16");
                      (VStr "severity", VStr "=", VStr "4")])).
Proof.
  apply analysis_setup_filters;
    first [ reflexivity | by eexists | by left ].
Defined.

Lemma analysis_posts_first_witness :
  ∃ rq rest,
    sent (analysis (paged_server 0) no_user_functions 1 [ip_filter] sumip
            fresh_world).2 = sent fresh_world ++ rq :: rest ∧
    is_post_analysis rq.
Proof.
  apply (analysis_posts_first _ _ 0 [ip_filter] sumip fresh_world 1000);
    [reflexivity|lia|].
  right. split_and!; first [ by eexists | by repeat constructor | by left ].
Defined.

Lemma analysis_body_accumulates_witness :
  ∃ s' w',
    analysis_body (paged_server 1) no_user_functions one_page fresh_world =
      (Ok s', w') ∧
    ∃ resp pk pobj out,
      self_post (paged_server 1) "analysis" (JsonBody (f_kwargs one_page))
        fresh_world = (Ok resp, w') ∧
      f_opts one_page !! "page_kwargs" = Some (VDict pk) ∧
      f_opts one_page !! "page_obj" = Some pobj ∧
      call no_user_functions pobj (<["resp" := VResp resp]> pk) = Ok out ∧
      ((∃ items, out = VList items ∧
                 f_output s' = f_output one_page ++ items) ∨
       ((∀ items, out ≠ VList items) ∧ f_output s' = f_output one_page)).
Proof.
  destruct (analysis_body (paged_server 1) no_user_functions one_page
              fresh_world) as [[s'| | |] w'] eqn:Hb;
    try (vm_compute in Hb; discriminate Hb).
  exists s', w'. split; [reflexivity|].
  exact (analysis_body_accumulates _ _ one_page s' fresh_world w' Hb).
Defined.

(** A string is a sequence, and none of its items is appended. *)
Lemma analysis_body_drops_str :
  call str_functions (VFunc (user_func 0)) ∅ = Ok (VStr "ab") ∧
  f_output one_page_custom = [VStr "old"] ∧
  f_output <$>
    (analysis_body (paged_server 1) str_functions one_page_custom
       fresh_world).1 = Ok [VStr "old"].
Proof. vm_compute. split_and!; reflexivity. Qed.

Lemma analysis_returns_witness :
  ∃ s output w',
    analysis_setup [ip_filter] (<["page" := VInt 0]> sumip) = Ok s ∧
    analysis_loop (paged_server 1) no_user_functions 1 s fresh_world =
      (Ok output, w') ∧
    analysis (paged_server 1) no_user_functions 1 [ip_filter]
      (<["page" := VInt 0]> sumip) fresh_world =
      (Ok (match output with [] => VNone | _ :: _ => VList output end), w').
Proof.
  destruct (analysis (paged_server 1) no_user_functions 1 [ip_filter]
              (<["page" := VInt 0]> sumip) fresh_world)
    as [[v| | |] w'] eqn:Ha; try (vm_compute in Ha; discriminate Ha).
  destruct (proj2 (analysis_returns (paged_server 1) no_user_functions 1
                     [ip_filter] (<["page" := VInt 0]> sumip) fresh_world)
              v w' Ha) as (s & output & Hs & Hl & _).
  exists s, output, w'. split; [exact Hs|]. split; [exact Hl|].
  rewrite <- Ha.
  exact (proj1 (analysis_returns (paged_server 1) no_user_functions 1
                  [ip_filter] (<["page" := VInt 0]> sumip) fresh_world)
           s output w' Hs Hl).
Defined.

(** Without a tool the page size is the default, positive, and yet no
    request is made. *)
Lemma analysis_posts_nothing_without_tool :
  default (VInt 1000) ((∅ : dict) !! "page_size") = VInt 1000 ∧
  analysis status_server no_user_functions 1 [ip_filter] ∅ fresh_world =
    (Raise (KeyError "tool"), fresh_world) ∧
  sent (analysis status_server no_user_functions 1 [ip_filter] ∅
          fresh_world).2 = [].
Proof. vm_compute. split_and!; reflexivity. Qed.

(** A server whose bodies are not JSON is told from none at all by
    nothing: the constructor raises the error of a missing server. *)
Lemma init_html_server :
  let w0 := init_world false fresh_world in
  html_server (sent w0) (APISession.prepare "GET" "system" NoBody w0) = Ok None ∧
  (∀ v b l u, ¬ ∃ d, json None = Ok d ∧ has_identity d v b l u) ∧
  (__init__ html_server host_part "sc.example.com" 443 false "https"
     VNone VNone fresh_world).1 =
    Raise (ServerError
             "No SecurityCenter Instance at https://sc.example.com:443") ∧
  (__init__ html_server host_part "sc.example.com" 443 false "https"
     VNone VNone fresh_world).1 ≠
    Raise (ServerError "Invalid SecurityCenter Instance").
Proof.
  split_and!.
  - reflexivity.
  - intros v b l u (d & Hd & _). discriminate Hd.
  - vm_compute. reflexivity.
  - vm_compute. discriminate.
Qed.

Lemma init_outcomes_witness :
  (__init__ status_server host_part "sc.example.com" 443 false "https"
     VNone VNone fresh_world).1 =
    Ok {| base :=
            {| APISession.URL := server_url "https" "sc.example.com" 443;
               APISession.host :=
                 host_part (server_url "https" "sc.example.com" 443) |};
          version := VStr "5.6.1"; build_id := VStr "201801";
          license := VStr "Valid"; uuid := VStr "u-1" |}.
Proof.
  eapply (proj2 (proj2 (proj2 (init_outcomes status_server host_part
            "sc.example.com" 443 false "https" VNone VNone fresh_world)))).
  - vm_compute. reflexivity.
  - eexists _, _. split_and!; reflexivity.
Defined.

(** ** Beyond the stated properties *)

(** *** The session calls *)

Lemma answers_passes (resp : response) (k : string) (v : value) :
  answers resp k v →
  _resp_error_check resp = Ok resp ∧ (d ← json resp; envelope d k) = Ok v.
Proof.
  intros (d & r & c & -> & Hc & Ht & Hr & Hk).
  rewrite error_check_cases, Hc, Ht. split; [done|].
  apply envelope_Ok. eauto.
Qed.

Section SessionCalls.

Variable transport : list request -> request -> outcome response.

Lemma login_eq (user passwd : value) (w : world) :
  login transport user passwd w =
    match (resp ← transport (sent w) (token_request user passwd w);
           resp ← _resp_error_check resp;
           d ← json resp;
           envelope d "token") with
    | Ok token =>
        (Ok tt,
         {| headers := <["X-SecurityCenter" := token]> (headers w);
            cookies := cookies w;
            sent := sent w ++ [token_request user passwd w];
            insecure_warning_off := insecure_warning_off w |})
    | Raise e => (Raise e, APISession.record_sent (token_request user passwd w) w)
    | Unmodelled => (Unmodelled, APISession.record_sent (token_request user passwd w) w)
    | OutOfFuel => (OutOfFuel, APISession.record_sent (token_request user passwd w) w)
    end.
Proof.
  unfold login, self_post, APISession.post, APISession._request,
    headers_update, token_request.
  unfold_py.
  destruct (transport _ _) as [r| | |]; try done.
  destruct (_resp_error_check r) as [r'| | |]; try done.
  destruct (json r') as [d| | |]; try done.
  destruct (envelope d "token") as [token| | |]; try done.
  cbn [headers cookies sent insecure_warning_off APISession.record_sent].
  by rewrite <- insert_union_singleton_l.
Qed.

(** X1. When the server answers [POST token] with an envelope that holds
    a token, [login] returns, the session sends that token as its
    [X-SecurityCenter] header from then on, the other headers stay as
    they were, and the one request made is the [POST token] with the
    credentials. *)
Theorem login_stores_token (user passwd : value) (w : world)
    (resp : response) (token : value) :
  transport (sent w) (token_request user passwd w) = Ok resp →
  answers resp "token" token →
  ∃ w',
    login transport user passwd w = (Ok tt, w') ∧
    headers w' = <["X-SecurityCenter" := token]> (headers w) ∧
    sent w' = sent w ++ [token_request user passwd w] ∧
    req_headers (APISession.prepare "GET" "system" NoBody w')
      !! "X-SecurityCenter" = Some token.
Proof.
  intros Ht Hans. destruct (answers_passes _ _ _ Hans) as [Hc He].
  rewrite login_eq, Ht. unfold_py. rewrite Hc.
  rewrite He.
  eexists. split; [reflexivity|]. split_and!; try done.
  apply lookup_insert_eq.
Qed.

(** X2. [login] makes one request whatever happens, and a call that does
    not return writes no header: a token stored before is still in
    place. *)
Theorem login_failure_keeps_session (user passwd : value) (w : world) :
  sent (login transport user passwd w).2 =
    sent w ++ [token_request user passwd w] ∧
  insecure_warning_off (login transport user passwd w).2 =
    insecure_warning_off w ∧
  ((login transport user passwd w).1 ≠ Ok tt →
   headers (login transport user passwd w).2 = headers w).
Proof.
  rewrite login_eq.
  destruct (_ ≫= _) as [token| | |]; split_and!; done.
Qed.

(** X3. A token response without [error_code] never logs in: the response
    hook raises [KeyError] on it, although the envelope holds the token. *)
Theorem login_needs_error_code (user passwd : value) (w : world)
    (d : dict) :
  transport (sent w) (token_request user passwd w) = Ok (Some (VDict d)) →
  d !! "error_code" = None →
  (login transport user passwd w).1 = Raise (KeyError "error_code") ∧
  headers (login transport user passwd w).2 = headers w.
Proof.
  intros Ht Hc. rewrite login_eq, Ht. unfold_py.
  rewrite error_check_cases, Hc. done.
Qed.

Lemma upload_eq (fileobj : value) (w : world) :
  upload transport fileobj w =
    (resp ← transport (sent w) (upload_request fileobj w);
     _resp_error_check resp,
     APISession.record_sent (upload_request fileobj w) w).
Proof. reflexivity. Qed.

(** X4. [upload] posts the file object under the one field [Filedata]
    and hands back the very response it received, which it does exactly
    when the response hook lets that response through; it leaves the
    headers of the session as they were. *)
Theorem upload_passes_response (fileobj : value) (w : world) :
  sent (upload transport fileobj w).2 = sent w ++ [upload_request fileobj w] ∧
  headers (upload transport fileobj w).2 = headers w ∧
  req_payload (upload_request fileobj w) =
    FilesBody {[ "Filedata" := fileobj ]} ∧
  ∀ resp,
    (upload transport fileobj w).1 = Ok resp ↔
    transport (sent w) (upload_request fileobj w) = Ok resp ∧
    (resp = None ∨
     ∃ d c, resp = Some (VDict d) ∧ d !! "error_code" = Some c ∧
            truthy c = Ok false).
Proof.
  rewrite upload_eq. cbn [fst snd].
  split_and!; try done.
  intros resp. unfold_py. split.
  - intros H. destruct (transport _ _) as [r| | |]; try discriminate H.
    rewrite error_check_cases in H.
    destruct r as [v|]; [|injection H as <-; auto].
    destruct v; try discriminate H.
    destruct (d !! "error_code") as [c|] eqn:Hc; [|discriminate H].
    destruct (truthy c) as [[]| | |] eqn:Ht; try discriminate H.
    + destruct (d !! "error_msg"); discriminate H.
    + injection H as <-. split; [done|]. right. eauto.
  - intros [-> Hresp]. rewrite error_check_cases.
    destruct Hresp as [->|(d & c & -> & Hc & Ht)]; [done|]. by rewrite Hc, Ht.
Qed.

(** X5. After a login that succeeds, the next call of the session goes
    out with the token: the upload request carries the
    [X-SecurityCenter] header, while the token request itself went out
    with the headers of before. *)
Theorem login_then_upload_carries_token (user passwd fileobj : value)
    (w : world) (resp : response) (token : value) :
  transport (sent w) (token_request user passwd w) = Ok resp →
  answers resp "token" token →
  ∃ rq,
    sent ((_ ← login transport user passwd; upload transport fileobj) w).2 =
      sent w ++ [token_request user passwd w; rq] ∧
    req_method rq = "POST" ∧
    req_path rq = "file/upload" ∧
    req_payload rq = FilesBody {[ "Filedata" := fileobj ]} ∧
    req_headers rq !! "X-SecurityCenter" = Some token ∧
    req_headers (token_request user passwd w) = headers w.
Proof.
  intros Ht Hans. destruct (answers_passes _ _ _ Hans) as [Hc He].
  unfold_py. rewrite login_eq, Ht. unfold_py. rewrite Hc.
  rewrite He. rewrite upload_eq. cbn [fst snd].
  eexists. split.
  - cbn [sent APISession.record_sent]. by rewrite <- app_assoc.
  - split_and!; try done. apply lookup_insert_eq.
Qed.

End SessionCalls.

(** X6. The exceptions that leave the response hook: never the
    [ValueError] it catches; an [APIError], a [KeyError] for a JSON object
    that lacks [error_code] or lacks [error_msg] beside a truthy code, or
    a [TypeError] for a JSON body that is no object. *)
Theorem resp_error_check_raises (resp : response) (e : exn) :
  _resp_error_check resp = Raise e →
  e ≠ ValueError ∧
  ((∃ code msg, e = APIError code msg) ∨
   (e = KeyError "error_code" ∧
    ∃ d, resp = Some (VDict d) ∧ d !! "error_code" = None) ∨
   (e = KeyError "error_msg" ∧
    ∃ d c, resp = Some (VDict d) ∧ d !! "error_code" = Some c ∧
           truthy c = Ok true ∧ d !! "error_msg" = None) ∨
   (e = TypeError ∧ ∃ v, resp = Some v ∧ ∀ d, v ≠ VDict d)).
Proof.
  rewrite error_check_cases. intros H.
  destruct resp as [v|]; [|discriminate H].
  destruct v;
    try (injection H as <-; split; [done|];
         do 3 right; split; [done|]; by eexists).
  destruct (d !! "error_code") as [c|] eqn:Hc.
  - destruct (truthy c) as [[]| | |] eqn:Ht; try discriminate H.
    + destruct (d !! "error_msg") as [m|] eqn:Hm; injection H as <-.
      * split; [done|]. left. eauto.
      * split; [done|]. right. right. left. split; [done|]. eauto 10.
    + destruct c; simpl in Ht; discriminate Ht.
  - injection H as <-. split; [done|]. right. left. split; [done|]. eauto.
Qed.

(** *** What [analysis] does before it asks *)

Lemma for_each_filter_entry_short (kwargs : dict) (filters : list (list value)) :
  is_Some (kwargs !! "type") →
  Exists (λ f, length f < 3) filters →
  for_each (filter_entry kwargs) filters = Raise IndexError.
Proof.
  intros [ty Hty]. induction filters as [|f filters IH]; intros Hex.
  { by apply Exists_nil in Hex. }
  cbn [for_each]. unfold_py.
  destruct (decide (length f < 3)) as [Hshort|Hlong].
  - destruct f as [|f0 [|f1 [|f2 f]]]; simpl in Hshort; try lia; done.
  - apply Exists_cons in Hex as [?|Hex]; [done|].
    rewrite (IH Hex).
    destruct f as [|f0 [|f1 [|f2 f]]]; simpl in Hlong; try lia.
    unfold filter_entry, tuple_get, getitem. unfold_py. simpl.
    by rewrite Hty.
Qed.

Lemma set_query_other (kw kw' : dict) (k : string) (v : value) :
  set_query kw k v = Ok kw' →
  ∀ k', k' ≠ "query" → kw' !! k' = kw !! k'.
Proof.
  unfold set_query. unfold_py. intros H k' Hk'.
  inv_bind H. inv_bind H. injection H as <-. by rewrite lookup_insert_ne.
Qed.

Lemma build_query_other (filters : list (list value)) (opts body kw : dict) :
  build_query filters opts body = Ok kw →
  ∀ k, k ≠ "query" →
    kw !! k = match body !! "query" with
              | Some _ => body !! k
              | None => delete "tool" body !! k
              end.
Proof.
  unfold build_query. intros H k Hk.
  destruct (body !! "query") eqn:Hq; [by injection H as <-|].
  unfold_py.
  assert (Hstart : delete "tool"
            (<["query" := VDict {[ "tool" := default VNone (body !! "tool");
                                   "type" := default VNone (body !! "type");
                                   "filters" := VList [] ]}]> body) !! k =
          delete "tool" body !! k).
  { destruct (decide (k = "tool")) as [->|Hkt].
    - by rewrite !lookup_delete_eq.
    - by rewrite !lookup_delete_ne, lookup_insert_ne by done. }
  assert (Hany : ∀ q : value,
            delete "tool" (<["query" := q]> body) !! k = delete "tool" body !! k).
  { intros q. destruct (decide (k = "tool")) as [->|Hkt].
    - by rewrite !lookup_delete_eq.
    - by rewrite !lookup_delete_ne, lookup_insert_ne by done. }
  clear Hstart.
  do 3 inv_bind H. cbv zeta in H. inv_bind H.
  destruct (eq_str _ "all"); repeat inv_bind H;
    repeat match goal with
           | Hs : set_query _ _ _ = Ok ?x |- context [?x !! k] =>
               rewrite (set_query_other _ _ _ _ Hs k Hk)
           end;
    apply Hany.
Qed.

Lemma option_names_spec (k : string) :
  k ∈ option_names ↔
  k = "page" ∨ k = "page_size" ∨ k = "page_obj" ∨ k = "page_kwargs" ∨
  k = "generator".
Proof.
  unfold option_names. rewrite !elem_of_cons, elem_of_nil. tauto.
Qed.

(** What the frame the loop starts from holds. *)
Lemma analysis_setup_Ok (filters : list (list value)) (kwargs : dict)
    (s : frame) :
  analysis_setup filters kwargs = Ok s →
  f_opts s = (split_opts (defaults kwargs)).1 ∧
  f_output s = [] ∧
  f_count s = VInt 0 ∧
  f_total_records s = default (VInt 1000) (kwargs !! "page_size") ∧
  ∀ kw, (∀ k, k ≠ "query" → kw !! k = f_kwargs s !! k) →
        is_analysis_body kwargs kw.
Proof.
  unfold analysis_setup.
  destruct (split_opts (defaults kwargs)) as [opts body] eqn:Hs.
  pose proof (λ k, proj2 (split_opts_lookup (defaults kwargs) k)) as Hb.
  rewrite Hs in Hb. cbn [snd] in Hb.
  destruct (split_defaults _ _ _ Hs) as (_ & Hsize & _ & _ & Hbq & Hbt & _).
  unfold_py. intros H.
  destruct (build_query filters opts body) as [kw0| | |] eqn:Hbuild;
    try discriminate H.
  pose proof (build_query_other _ _ _ _ Hbuild) as Hother.
  rewrite Hbq in Hother.
  unfold getitem in H. rewrite Hsize in H. injection H as <-.
  cbn [f_opts f_output f_count f_total_records f_kwargs fst].
  split_and!; try done.
  intros kw Hkw.
  assert (Hlook : ∀ k, k ≠ "query" →
    kw !! k = match kwargs !! "query" with
              | Some _ => body !! k
              | None => delete "tool" body !! k
              end).
  { intros k Hk. rewrite Hkw by done. by apply Hother. }
  assert (Hnot_tool : ∀ k, k ≠ "query" → k ≠ "tool" → kw !! k = body !! k).
  { intros k Hk Hkt. rewrite Hlook by done.
    destruct (kwargs !! "query"); [done|]. by rewrite lookup_delete_ne. }
  fold option_names in Hb.
  unfold is_analysis_body. split_and!.
  - intros k Hk. rewrite Hnot_tool.
    + rewrite Hb. by rewrite decide_True.
    + apply option_names_spec in Hk. intuition congruence.
    + apply option_names_spec in Hk. intuition congruence.
  - rewrite Hnot_tool, Hb by done.
    rewrite decide_False by (rewrite option_names_spec; intuition congruence).
    by rewrite defaults_lookup.
  - rewrite Hnot_tool, Hb by done.
    rewrite decide_False by (rewrite option_names_spec; intuition congruence).
    by rewrite defaults_lookup.
  - intros Hq. rewrite Hlook, Hq by done. apply lookup_delete_eq.
  - intros [q Hq]. rewrite Hlook, Hq by done. by rewrite Hbt.
  - intros k Hopt Hkq Hkt Hkty Hks. rewrite Hnot_tool, Hb by done.
    rewrite decide_False by done. rewrite defaults_lookup.
    rewrite option_names_spec in Hopt.
    repeat case_decide; try done; subst; exfalso; apply Hopt; auto 10.
Qed.

(** The frame of a call whose query can be built. *)
Lemma analysis_setup_buildable (filters : list (list value)) (kwargs : dict)
    (size : Z) :
  default (VInt 1000) (kwargs !! "page_size") = VInt size →
  query_buildable filters kwargs →
  ∃ s, analysis_setup filters kwargs = Ok s ∧
       f_total_records s = VInt size ∧ f_count s = VInt 0 ∧ f_output s = [].
Proof.
  intros Hsize Hbuild.
  assert (∃ s, analysis_setup filters kwargs = Ok s) as [s Hs].
  { destruct Hbuild as [Hq|(Htool & Hfilters & Hpaging)].
    - rewrite (analysis_setup_custom _ _ Hq). by eexists.
    - destruct (kwargs !! "query") as [q|] eqn:Hq.
      { rewrite (analysis_setup_custom filters kwargs) by by rewrite Hq.
        by eexists. }
      destruct Htool as [tool Htool].
      destruct (for_each_filter_entry_ok
                  (default (VStr "vuln") (kwargs !! "type")) filters Hfilters)
        as [fs Hfs].
      rewrite (analysis_setup_built filters kwargs tool fs Hq Htool Hfs).
      rewrite Hsize.
      destruct Hpaging as [->|(p & s1 & -> & Hs1)].
      + rewrite first_offsets_all. by eexists.
      + rewrite Hsize in Hs1. injection Hs1 as <-.
        change (default (VStr "all") (Some (VInt p))) with (VInt p).
        rewrite first_offsets_page. by eexists. }
  exists s. split; [done|].
  destruct (analysis_setup_Ok _ _ _ Hs) as (_ & Ho & Hc & Ht & _).
  by rewrite Ht, Hsize.
Qed.

Section Before.

Variable transport : list request -> request -> outcome response.
Variable user_call : nat -> dict -> outcome value.

(** X7. Called with neither a [tool] nor a custom [query], [analysis]
    raises [KeyError('tool')] and no request is made. *)
Theorem analysis_missing_tool (fuel : nat) (filters : list (list value))
    (kwargs : dict) (w : world) :
  kwargs !! "query" = None →
  kwargs !! "tool" = None →
  analysis transport user_call fuel filters kwargs w =
    (Raise (KeyError "tool"), w).
Proof.
  intros Hq Ht. unfold analysis, analysis_setup.
  destruct (split_opts (defaults kwargs)) as [opts body] eqn:Hs.
  destruct (split_defaults _ _ _ Hs) as (_ & _ & _ & _ & Hbq & Hbt & _).
  unfold build_query, getitem. rewrite Hbq, Hq, Hbt, Ht. done.
Qed.

(** X8. A filter of fewer than three items makes [analysis] raise
    [IndexError] while it builds the query: no request is made. *)
Theorem analysis_short_filter (fuel : nat) (filters : list (list value))
    (kwargs : dict) (w : world) :
  kwargs !! "query" = None →
  is_Some (kwargs !! "tool") →
  Exists (λ f, length f < 3) filters →
  analysis transport user_call fuel filters kwargs w = (Raise IndexError, w).
Proof.
  intros Hq [tool Ht] Hex. unfold analysis, analysis_setup.
  destruct (split_opts (defaults kwargs)) as [opts body] eqn:Hs.
  destruct (split_defaults _ _ _ Hs) as (_ & _ & _ & _ & Hbq & Hbt & Hty).
  unfold build_query, getitem. rewrite Hbq, Hq, Hbt, Ht, Hty. unfold_py.
  rewrite for_each_filter_entry_short; [done| |done]. by rewrite Hty.
Qed.

(** X9. With a page size that is zero or negative, [analysis] asks the
    server nothing and returns [None], whatever else it was given. *)
Theorem analysis_nonpositive_page_size (fuel : nat)
    (filters : list (list value)) (kwargs : dict) (w : world) (size : Z) :
  default (VInt 1000) (kwargs !! "page_size") = VInt size →
  (size ≤ 0)%Z →
  query_buildable filters kwargs →
  analysis transport user_call fuel filters kwargs w = (Ok VNone, w).
Proof.
  intros Hsize Hneg Hbuild.
  destruct (analysis_setup_buildable _ _ _ Hsize Hbuild)
    as (s & Hs & Ht & Hc & Ho).
  unfold analysis. unfold_py. rewrite Hs.
  rewrite analysis_loop_stop.
  - by rewrite Ho.
  - rewrite Ht, Hc. cbn [py_gt]. f_equal. lia.
Qed.

End Before.

(** X10. Moving the options out of the keyword arguments loses nothing
    and mixes nothing: options and request body together are the keyword
    arguments, they share no key, the options are among the five names
    and the body holds none of them. *)
Theorem split_opts_partition (kwargs : dict) :
  (split_opts kwargs).1 ∪ (split_opts kwargs).2 = kwargs ∧
  (split_opts kwargs).1 ##ₘ (split_opts kwargs).2 ∧
  (∀ k, is_Some ((split_opts kwargs).1 !! k) → k ∈ option_names) ∧
  (∀ k, k ∈ option_names → (split_opts kwargs).2 !! k = None).
Proof.
  pose proof (λ k, proj1 (split_opts_lookup kwargs k)) as Ho.
  pose proof (λ k, proj2 (split_opts_lookup kwargs k)) as Hb.
  unfold option_names. split_and!.
  - apply map_eq. intros k. rewrite lookup_union, Ho, Hb.
    case_decide; by destruct (kwargs !! k).
  - apply map_disjoint_spec. intros k x y. rewrite Ho, Hb.
    by case_decide.
  - intros k. rewrite Ho. case_decide; [done|]. by intros [? ?].
  - intros k Hk. rewrite Hb. by rewrite decide_True.
Qed.

(** X11. The defaults fill gaps and nothing more: a keyword argument of
    the caller other than [generator] is kept as given, a name that is
    neither given nor one of the six defaulted names stays absent, and
    applying the defaults twice is applying them once. *)
Theorem defaults_fills_gaps (kwargs : dict) :
  (∀ k v, k ≠ "generator" → kwargs !! k = Some v →
          defaults kwargs !! k = Some v) ∧
  (∀ k, kwargs !! k = None →
        k ∉ ["page"; "page_size"; "page_obj"; "page_kwargs"; "type";
             "sourceType"] →
        defaults kwargs !! k = None) ∧
  defaults (defaults kwargs) = defaults kwargs.
Proof.
  split_and!.
  - intros k v Hk Hv. rewrite defaults_lookup.
    repeat case_decide; subst; rewrite ?Hv; done.
  - intros k Hk Hnot. rewrite defaults_lookup.
    rewrite !elem_of_cons, elem_of_nil in Hnot.
    repeat case_decide; subst; rewrite ?Hk; try done;
      exfalso; apply Hnot; auto 10.
  - apply map_eq. intros k. rewrite (defaults_lookup (defaults kwargs)).
    rewrite !(defaults_lookup kwargs).
    repeat case_decide; simplify_eq; try done.
    by destruct (kwargs !! "generator").
Qed.

(** *** What the loop keeps *)

Section Keeps.

Variable transport : list request -> request -> outcome response.
Variable user_call : nat -> dict -> outcome value.

(** A round touches the query of the request body and the keyword
    arguments of the transform, nothing else. *)
Lemma process_page_frame (s s' : frame) (resp : response) :
  process_page user_call s resp = Ok s' →
  (∀ k, k ≠ "query" → f_kwargs s' !! k = f_kwargs s !! k) ∧
  (∀ k, k ≠ "page_kwargs" → f_opts s' !! k = f_opts s !! k).
Proof.
  unfold process_page. unfold_py. intros H.
  do 2 inv_bind H. cbv zeta in H. repeat inv_bind H;
    injection H as <-; cbn [f_kwargs f_opts];
    (split; [|by intros; apply lookup_insert_ne]);
    intros k Hk; try done.
  repeat match goal with
         | Hs : set_query _ _ _ = Ok ?x |- context [?x !! k] =>
             rewrite (set_query_other _ _ _ _ Hs k Hk)
         end.
  done.
Qed.

Lemma analysis_body_Ok (s s' : frame) (w w' : world) :
  analysis_body transport user_call s w = (Ok s', w') →
  w' = APISession.record_sent (page_request s w) w ∧
  ∃ resp, process_page user_call s resp = Ok s'.
Proof.
  rewrite analysis_body_eq. unfold_py. intros H.
  destruct (transport _ _) as [r| | |]; try discriminate H.
  destruct (_resp_error_check r) as [resp| | |]; try discriminate H.
  destruct (process_page user_call s resp) as [s1| | |] eqn:Hp;
    try discriminate H.
  injection H as <- <-. eauto.
Qed.

(** The requests of the loop: all of them go to [POST analysis] with the
    headers of the session and a body that differs from the first in its
    query alone; the session is left as it was. *)
Lemma analysis_loop_bodies (fuel : nat) (s : frame) (w : world) :
  ∃ reqs,
    sent (analysis_loop transport user_call fuel s w).2 = sent w ++ reqs ∧
    headers (analysis_loop transport user_call fuel s w).2 = headers w ∧
    cookies (analysis_loop transport user_call fuel s w).2 = cookies w ∧
    insecure_warning_off (analysis_loop transport user_call fuel s w).2 =
      insecure_warning_off w ∧
    Forall (λ rq, is_post_analysis rq ∧ req_headers rq = headers w ∧
                  ∃ kw, req_payload rq = JsonBody kw ∧
                        ∀ k, k ≠ "query" → kw !! k = f_kwargs s !! k) reqs.
Proof.
  revert s w. induction fuel as [|fuel IH]; intros s w;
    rewrite analysis_loop_unfold; unfold_py;
    destruct (py_gt _ _) as [[]| | |];
    try (exists []; by rewrite app_nil_r).
  assert (Hrq : is_post_analysis (page_request s w) ∧
                req_headers (page_request s w) = headers w ∧
                ∃ kw, req_payload (page_request s w) = JsonBody kw ∧
                      ∀ k, k ≠ "query" → kw !! k = f_kwargs s !! k).
  { split_and!; try done. by eexists. }
  pose proof (analysis_body_eq transport user_call s w) as Hw.
  apply (f_equal snd) in Hw. cbn [snd] in Hw.
  destruct (analysis_body transport user_call s w) as [[s'| | |] w'] eqn:Hb;
    cbn [snd] in Hw; subst w';
    try (exists [page_request s w]; split_and!; try done;
         constructor; [exact Hrq|constructor]).
  destruct (analysis_body_Ok _ _ _ _ Hb) as [_ [resp Hp]].
  destruct (process_page_frame _ _ _ Hp) as [Hkw _].
  destruct (IH s' (APISession.record_sent (page_request s w) w))
    as (reqs & -> & -> & -> & -> & Hreqs).
  exists (page_request s w :: reqs). cbn [sent APISession.record_sent].
  rewrite <- app_assoc. split_and!; try done.
  constructor; [done|].
  eapply Forall_impl; [exact Hreqs|].
  intros rq (Hpost & Hh & kw & Hkw' & Hsame). split_and!; try done.
  exists kw. split; [done|]. intros k Hk. rewrite Hsame by done. by apply Hkw.
Qed.

Lemma analysis_world_eq (fuel : nat) (filters : list (list value))
    (kwargs : dict) (w : world) :
  (analysis transport user_call fuel filters kwargs w).2 =
    match analysis_setup filters kwargs with
    | Ok s => (analysis_loop transport user_call fuel s w).2
    | _ => w
    end.
Proof.
  unfold analysis. unfold_py.
  destruct (analysis_setup filters kwargs) as [s| | |]; try done.
  destruct (analysis_loop transport user_call fuel s w) as [[out| | |] w'];
    try done.
  by destruct (0 <? length out).
Qed.

(** X12. Every request of a call of [analysis] goes to [POST analysis]
    with the headers of the session, and its body never holds one of the
    options [page], [page_size], [page_obj], [page_kwargs], [generator];
    it holds the query type and the source type of the call, no [tool]
    next to a query built from it, and every other keyword argument as
    the caller gave it. *)
Theorem analysis_request_bodies (fuel : nat) (filters : list (list value))
    (kwargs : dict) (w : world) :
  ∃ reqs,
    sent (analysis transport user_call fuel filters kwargs w).2 =
      sent w ++ reqs ∧
    Forall (λ rq, is_post_analysis rq ∧ req_headers rq = headers w ∧
                  ∃ kw, req_payload rq = JsonBody kw ∧
                        is_analysis_body kwargs kw) reqs.
Proof.
  rewrite analysis_world_eq.
  destruct (analysis_setup filters kwargs) as [s| | |] eqn:Hs;
    try (exists []; by rewrite app_nil_r).
  destruct (analysis_setup_Ok _ _ _ Hs) as (_ & _ & _ & _ & Hbody).
  destruct (analysis_loop_bodies fuel s w) as (reqs & Hsent & _ & _ & _ & Hreqs).
  exists reqs. split; [done|].
  eapply Forall_impl; [exact Hreqs|].
  intros rq (Hpost & Hh & kw & Hkw & Hsame). split_and!; try done.
  exists kw. split; [done|]. by apply Hbody.
Qed.

(** X13. [analysis] writes no header and leaves the warning switch
    alone: both are after the call what they were before it, whether the
    call returns, raises or runs on. *)
Theorem analysis_keeps_session (fuel : nat) (filters : list (list value))
    (kwargs : dict) (w : world) :
  headers (analysis transport user_call fuel filters kwargs w).2 = headers w ∧
  insecure_warning_off (analysis transport user_call fuel filters kwargs w).2 =
    insecure_warning_off w.
Proof.
  rewrite analysis_world_eq.
  destruct (analysis_setup filters kwargs) as [s| | |]; try done.
  destruct (analysis_loop_bodies fuel s w) as (reqs & _ & Hh & Hc & Hi & _).
  done.
Qed.

(** A transform that never hands back a list leaves the output empty. *)
Lemma analysis_loop_without_list (fuel : nat) (s : frame) (w w' : world)
    (id : nat) (output : list value) :
  (∀ kw items, user_call id kw ≠ Ok (VList items)) →
  f_opts s !! "page_obj" = Some (VFunc (user_func id)) →
  f_output s = [] →
  analysis_loop transport user_call fuel s w = (Ok output, w') →
  output = [].
Proof.
  intros Hu. revert s w. induction fuel as [|fuel IH]; intros s w Hobj Hout;
    rewrite analysis_loop_unfold; unfold_py;
    destruct (py_gt _ _) as [[]| | |]; try done;
    try (intros [= <- <-]; done).
  destruct (analysis_body transport user_call s w) as [[s'| | |] w1] eqn:Hb;
    try done.
  destruct (analysis_body_Ok _ _ _ _ Hb) as [-> [resp Hp]].
  destruct (process_page_frame _ _ _ Hp) as [_ Hopts].
  destruct (process_page_Ok user_call s s' resp Hp)
    as (pk & pobj & out & page & total & _ & Hobj' & Hcall & Hout' & _).
  rewrite Hobj in Hobj'. injection Hobj' as <-. cbn [call] in Hcall.
  apply IH.
  - by rewrite Hopts.
  - rewrite Hout', Hout. destruct out; try done. by apply Hu in Hcall.
Qed.

(** X14. With a transform of the caller that never hands back a list,
    a call of [analysis] that returns gives [None], however many records
    the server sent. *)
Theorem analysis_transform_without_list (fuel : nat)
    (filters : list (list value)) (kwargs : dict) (w w' : world)
    (id : nat) (v : value) :
  kwargs !! "page_obj" = Some (VFunc (user_func id)) →
  (∀ kw items, user_call id kw ≠ Ok (VList items)) →
  analysis transport user_call fuel filters kwargs w = (Ok v, w') →
  v = VNone.
Proof.
  intros Hobj Hu. unfold analysis. unfold_py.
  destruct (analysis_setup filters kwargs) as [s| | |] eqn:Hs; try done.
  destruct (analysis_setup_Ok _ _ _ Hs) as (Hopts & Hout & _).
  destruct (analysis_loop transport user_call fuel s w) as [[out| | |] w1]
    eqn:Hl; try done.
  rewrite (analysis_loop_without_list fuel s w w1 id out Hu); try done.
  - by intros [= <- _].
  - rewrite Hopts.
    destruct (split_opts (defaults kwargs)) as [opts body] eqn:Hsp.
    destruct (split_defaults _ _ _ Hsp) as (_ & _ & Ho & _).
    cbn [fst]. by rewrite Ho, Hobj.
Qed.

End Keeps.

(** *** Paging through all records *)

(** The frame the loop starts from when every page is asked for with the
    default transform and a query built from the tool. *)
Lemma analysis_setup_all_pages (filters : list (list value)) (kwargs : dict)
    (size : Z) :
  default (VStr "all") (kwargs !! "page") = VStr "all" →
  default (VInt 1000) (kwargs !! "page_size") = VInt size →
  kwargs !! "page_obj" = None →
  kwargs !! "page_kwargs" = None →
  kwargs !! "query" = None →
  is_Some (kwargs !! "tool") →
  Forall (λ f, 3 ≤ length f) filters →
  ∃ s, analysis_setup filters kwargs = Ok s ∧
       all_pages_frame s size 0 (0 + size) ∧
       f_output s = [] ∧ f_count s = VInt 0 ∧ f_total_records s = VInt size.
Proof.
  intros Hpage Hsize Hobj Hpk Hquery [tool Htool] Hfilters.
  destruct (for_each_filter_entry_ok
              (default (VStr "vuln") (kwargs !! "type")) filters Hfilters)
    as [fs Hfs].
  rewrite (analysis_setup_built filters kwargs tool fs Hquery Htool Hfs).
  rewrite Hpage, Hsize, first_offsets_all. unfold_py. cbn [fst snd].
  eexists. split; [reflexivity|]. split; [|done].
  destruct (split_opts (defaults kwargs)) as [opts body] eqn:Hs.
  destruct (split_defaults _ _ _ Hs) as (Ho1 & Ho2 & Ho3 & Ho4 & _).
  rewrite Hpage in Ho1. rewrite Hsize in Ho2. rewrite Hobj in Ho3.
  rewrite Hpk in Ho4.
  unfold all_pages_frame. cbn [f_opts f_kwargs fst snd].
  split_and!; try done; [by eexists|].
  eexists. rewrite lookup_insert_eq. split; [done|]. unfold query_dict.
  by rewrite lookup_insert_ne, lookup_insert_eq, lookup_insert_eq.
Qed.

Lemma page_count_succ (total size : Z) :
  (0 < size)%Z →
  ∃ m : nat,
    page_count total size = S m ∧
    (m = 0 ∨ (Z.of_nat m * size < total)%Z) ∧
    (total ≤ (Z.of_nat m + 1) * size)%Z.
Proof.
  intros Hsize. unfold page_count.
  pose proof (Z.mul_div_le (total + size - 1) size Hsize) as Hlo.
  pose proof (Z.mul_succ_div_gt (total + size - 1) size Hsize) as Hhi.
  set (q := ((total + size - 1) / size)%Z) in *.
  exists (Nat.max 1 (Z.to_nat q) - 1). split; [lia|].
  destruct (Z_le_gt_dec q 1) as [Hq|Hq].
  - replace (Nat.max 1 (Z.to_nat q) - 1) with 0 by lia.
    split; [by left|]. nia.
  - replace (Z.of_nat (Nat.max 1 (Z.to_nat q) - 1)) with (q - 1)%Z by lia.
    split; [right|]; nia.
Qed.

Section Paging.

Variable transport : list request -> request -> outcome response.
Variable user_call : nat -> dict -> outcome value.

(** While the server reports more records than the offset it ends at,
    the loop asks again. *)
Lemma analysis_loop_runs_on (fuel : nat) (size total stop : Z) :
  (stop < total)%Z →
  (∀ history rq,
     is_post_analysis rq →
     ∃ resp items, transport history rq = Ok resp ∧
                   is_page resp total stop items) →
  ∀ (s : frame) (w : world) (a b : Z),
    all_pages_frame s size a b →
    py_gt (f_total_records s) (f_count s) = Ok true →
    (analysis_loop transport user_call fuel s w).1 = OutOfFuel ∧
    length (sent (analysis_loop transport user_call fuel s w).2) =
      length (sent w) + fuel.
Proof.
  intros Hstop Hserver.
  induction fuel as [|fuel IH]; intros s w a b Hs Hgt;
    rewrite analysis_loop_unfold; unfold_py; rewrite Hgt.
  { split; [done|]. simpl. lia. }
  destruct (Hserver (sent w) (page_request s w) (page_request_is_post s w))
    as (resp & items & Ht & Hp).
  destruct (analysis_body_all transport user_call s w resp _ _ _ _ _ _
              Hs Ht Hp) as (s1 & Hb & Hs1 & _ & Hc1 & Hr1).
  rewrite Hb.
  destruct (IH s1 (APISession.record_sent (page_request s w) w)
              stop (stop + size)%Z Hs1) as [Hout Hlen].
  { rewrite Hr1, Hc1. cbn [py_gt]. f_equal. lia. }
  split; [done|]. rewrite Hlen. cbn [sent APISession.record_sent].
  rewrite length_app. simpl. lia.
Qed.

(** X15. There is no cap on the rounds: against a server whose end
    offset stays below the total it reports, [analysis] with
    [page='all'] is still asking when the fuel is spent, whatever the
    fuel, having made one request per round. *)
Theorem analysis_runs_on (fuel : nat) (filters : list (list value))
    (kwargs : dict) (w : world) (size total stop : Z) :
  default (VStr "all") (kwargs !! "page") = VStr "all" →
  default (VInt 1000) (kwargs !! "page_size") = VInt size →
  (0 < size)%Z →
  kwargs !! "page_obj" = None →
  kwargs !! "page_kwargs" = None →
  kwargs !! "query" = None →
  is_Some (kwargs !! "tool") →
  Forall (λ f, 3 ≤ length f) filters →
  (stop < total)%Z →
  (∀ history rq,
     is_post_analysis rq →
     ∃ resp items, transport history rq = Ok resp ∧
                   is_page resp total stop items) →
  (analysis transport user_call fuel filters kwargs w).1 = OutOfFuel ∧
  length (sent (analysis transport user_call fuel filters kwargs w).2) =
    length (sent w) + fuel.
Proof.
  intros Hpage Hsize Hpos Hobj Hpk Hquery Htool Hfilters Hstop Hserver.
  destruct (analysis_setup_all_pages filters kwargs size)
    as (s & Hs & Hframe & _ & Hc & Ht); try done.
  destruct (analysis_loop_runs_on fuel size total stop Hstop Hserver
              s w _ _ Hframe) as [Hout Hlen].
  { rewrite Ht, Hc. cbn [py_gt]. f_equal. lia. }
  rewrite analysis_world_eq, Hs. split; [|done].
  unfold analysis. unfold_py. rewrite Hs.
  destruct (analysis_loop transport user_call fuel s w) as [[out| | |] w'];
    done.
Qed.

(** The rounds of the loop from the page at offset [a] on, when [m] more
    pages follow it. *)
Lemma analysis_loop_pages (size total : Z) :
  (0 < size)%Z →
  (∀ history rq a b,
     is_post_analysis rq → offsets rq = Some (a, b) →
     ∃ resp items,
       transport history rq = Ok resp ∧
       is_page resp total b items ∧
       length items = Z.to_nat (Z.min b total - a)) →
  ∀ (m fuel : nat) (s : frame) (w : world) (a : Z),
    all_pages_frame s size a (a + size) →
    py_gt (f_total_records s) (f_count s) = Ok true →
    m = 0 ∨ (a + Z.of_nat m * size < total)%Z →
    (total ≤ a + (Z.of_nat m + 1) * size)%Z →
    m < fuel →
    ∃ output reqs w',
      analysis_loop transport user_call fuel s w = (Ok output, w') ∧
      sent w' = sent w ++ reqs ∧
      Forall is_post_analysis reqs ∧
      offsets <$> reqs = Some <$> pages_from size a (S m) ∧
      Z.of_nat (length output) =
        (Z.of_nat (length (f_output s)) + Z.max 0 (total - a))%Z.
Proof.
  intros Hpos Hserver.
  induction m as [|m IH]; intros fuel s w a Hs Hgt Hmore Hlast Hfuel;
    (destruct fuel as [|fuel]; [lia|]);
    destruct (Hserver (sent w) (page_request s w) a (a + size)%Z
                (page_request_is_post s w) (all_pages_offsets _ _ _ _ _ Hs))
      as (resp & items & Ht & Hp & Hl);
    destruct (analysis_body_all transport user_call s w resp _ _ _ _ _ _
                Hs Ht Hp) as (s1 & Hb & Hs1 & Ho1 & Hc1 & Hr1);
    rewrite (analysis_loop_step transport user_call fuel s s1 w
               (APISession.record_sent (page_request s w) w) Hgt Hb).
  - rewrite analysis_loop_stop
      by (rewrite Hr1, Hc1; cbn [py_gt]; f_equal; lia).
    exists (f_output s1), [page_request s w],
      (APISession.record_sent (page_request s w) w).
    split_and!; try done.
    + by repeat constructor.
    + cbn [fmap list_fmap pages_from].
      by rewrite (all_pages_offsets s w _ _ _ Hs).
    + rewrite Ho1, length_app, Hl. lia.
  - assert (0 ≤ Z.of_nat m * size)%Z by nia.
    destruct (IH fuel s1 (APISession.record_sent (page_request s w) w)
                (a + size)%Z Hs1)
      as (output & reqs & w' & Hloop & Hsent & Hposts & Hoffs & Hlen);
      [by rewrite Hr1, Hc1; cbn [py_gt]; f_equal; lia|lia|lia|lia|].
    exists output, (page_request s w :: reqs), w'.
    split_and!; try done.
    + rewrite Hsent. cbn [sent APISession.record_sent].
      by rewrite <- app_assoc.
    + by constructor.
    + cbn [fmap list_fmap pages_from]. f_equal.
      * exact (all_pages_offsets s w _ _ _ Hs).
      * exact Hoffs.
    + rewrite Hlen, Ho1, length_app, Hl. lia.
Qed.

(** X16. Paging through all records: against a server that holds
    [total] records and answers each query with the records between its
    offsets, [analysis] with [page='all'] and page size [size] makes
    [page_count total size] requests, the i-th for the offsets
    [(i*size, (i+1)*size)], gathers [total] records and returns them, or
    [None] when there are none. *)
Theorem analysis_all_pages (fuel : nat) (filters : list (list value))
    (kwargs : dict) (w : world) (size total : Z) :
  default (VStr "all") (kwargs !! "page") = VStr "all" →
  default (VInt 1000) (kwargs !! "page_size") = VInt size →
  (0 < size)%Z →
  kwargs !! "page_obj" = None →
  kwargs !! "page_kwargs" = None →
  kwargs !! "query" = None →
  is_Some (kwargs !! "tool") →
  Forall (λ f, 3 ≤ length f) filters →
  (∀ history rq a b,
     is_post_analysis rq → offsets rq = Some (a, b) →
     ∃ resp items,
       transport history rq = Ok resp ∧
       is_page resp total b items ∧
       length items = Z.to_nat (Z.min b total - a)) →
  page_count total size ≤ fuel →
  ∃ output reqs w',
    analysis transport user_call fuel filters kwargs w =
      (Ok (if decide (0 < total)%Z then VList output else VNone), w') ∧
    sent w' = sent w ++ reqs ∧
    Forall is_post_analysis reqs ∧
    offsets <$> reqs = Some <$> page_offsets size (page_count total size) ∧
    length output = Z.to_nat total.
Proof.
  intros Hpage Hsize Hpos Hobj Hpk Hquery Htool Hfilters Hserver Hfuel.
  destruct (analysis_setup_all_pages filters kwargs size)
    as (s & Hs & Hframe & Hout & Hc & Ht); try done.
  destruct (page_count_succ total size Hpos) as (m & Hm & Hmore & Hlast).
  destruct (analysis_loop_pages size total Hpos Hserver m fuel s w 0%Z Hframe)
    as (output & reqs & w' & Hloop & Hsent & Hposts & Hoffs & Hlen);
    [by rewrite Ht, Hc; cbn [py_gt]; f_equal; lia|lia|lia|lia|].
  rewrite Hout in Hlen. simpl in Hlen.
  exists output, reqs, w'. split_and!; try done.
  - unfold analysis. unfold_py. rewrite Hs, Hloop.
    destruct (decide (0 < total)%Z).
    + by rewrite (proj2 (Nat.ltb_lt 0 (length output))) by lia.
    + by rewrite (proj2 (Nat.ltb_ge 0 (length output))) by lia.
  - by rewrite Hm.
  - lia.
Qed.

End Paging.

(** *** One page *)

Lemma is_single_page_passes (resp : response) (total : Z) (items : list value) :
  is_single_page resp total items → _resp_error_check resp = Ok resp.
Proof.
  intros (d & r & c & t & -> & Hc & Ht & _).
  rewrite error_check_cases. by rewrite Hc, Ht.
Qed.

Section OnePage.

Variable transport : list request -> request -> outcome response.
Variable user_call : nat -> dict -> outcome value.

Lemma process_page_single (s : frame) (resp : response) (p total : Z)
    (items : list value) (pk : dict) :
  f_opts s !! "page" = Some (VInt p) →
  f_opts s !! "page_obj" = Some (VFunc return_results) →
  f_opts s !! "page_kwargs" = Some (VDict pk) →
  is_single_page resp total items →
  ∃ s',
    process_page user_call s resp = Ok s' ∧
    f_output s' = f_output s ++ items ∧
    f_count s' = VInt total ∧
    f_total_records s' = VInt total.
Proof.
  intros Hpage Hobj Hpk (d & r & c & t & -> & Hc & Ht & Hr & Htot & Hitot & Hres).
  unfold process_page, getitem. rewrite Hpk. unfold_py. cbn [setitem].
  rewrite lookup_insert_ne, Hobj by done.
  rewrite lookup_insert_eq. cbn [call].
  unfold getitem, envelope, subscript, getitem. unfold_py.
  rewrite lookup_insert_eq. cbn [method_json json].
  rewrite Hr, Hres, Htot, Hitot.
  rewrite (lookup_insert_ne (f_opts s)), Hpage by done. cbn [eq_str].
  eexists. split; [reflexivity|]. done.
Qed.

(** X17. Asked for one page with the default transform, [analysis]
    makes one request and returns the [results] list of the answer as it
    is, or [None] when that list is empty; the total the server reports
    plays no part. *)
Theorem analysis_single_page_results (fuel : nat)
    (filters : list (list value)) (kwargs : dict) (w : world) (p size : Z)
    (resp : response) (total : Z) (items : list value) :
  kwargs !! "page" = Some (VInt p) →
  default (VInt 1000) (kwargs !! "page_size") = VInt size →
  (0 < size)%Z →
  kwargs !! "page_obj" = None →
  kwargs !! "page_kwargs" = None →
  query_buildable filters kwargs →
  (∀ history rq, is_post_analysis rq → transport history rq = Ok resp) →
  is_single_page resp total items →
  ∃ rq,
    analysis transport user_call (S fuel) filters kwargs w =
      (Ok (match items with [] => VNone | _ => VList items end),
       APISession.record_sent rq w) ∧
    is_post_analysis rq.
Proof.
  intros Hpage Hsize Hpos Hobj Hpk Hbuild Htr Hresp.
  destruct (analysis_setup_buildable _ _ _ Hsize Hbuild)
    as (s & Hs & Ht & Hc & Ho).
  destruct (analysis_setup_Ok _ _ _ Hs) as (Hopts & _).
  destruct (split_opts (defaults kwargs)) as [opts body] eqn:Hsp.
  destruct (split_defaults _ _ _ Hsp) as (Ho1 & _ & Ho3 & Ho4 & _).
  cbn [fst] in Hopts. rewrite <- Hopts in Ho1, Ho3, Ho4.
  rewrite Hpage in Ho1. rewrite Hobj in Ho3. rewrite Hpk in Ho4.
  destruct (process_page_single s resp p total items ∅ Ho1 Ho3 Ho4 Hresp)
    as (s' & Hs' & Ho' & Hc' & Ht').
  exists (page_request s w). split; [|done].
  unfold analysis. unfold_py. rewrite Hs.
  rewrite analysis_loop_unfold. unfold_py.
  rewrite Ht, Hc. cbn [py_gt]. rewrite (proj2 (Z.ltb_lt 0 size) Hpos).
  rewrite analysis_body_eq. unfold_py.
  rewrite (Htr _ _ (page_request_is_post s w)).
  rewrite (is_single_page_passes _ _ _ Hresp), Hs'.
  rewrite analysis_loop_stop
    by (rewrite Ht', Hc'; cbn [py_gt]; by rewrite Z.ltb_irrefl).
  rewrite Ho', Ho. cbn [app]. by destruct items.
Qed.

End OnePage.

(** *** The constructor's [ssl_verify] *)

Section Verify.

Variable transport : list request -> request -> outcome response.
Variable host_of_url : string -> string.

(** X18. [ssl_verify] reaches nothing but the warning switch: it is not
    handed to the base class, so the constructor makes the same request
    and ends the same way with it or without it; without it the warnings
    are off afterwards, with it the switch is left as it was. *)
Theorem init_ssl_verify_only_warnings (host : string) (port : Z)
    (scheme : string) (retries backoff : value) (w : world) :
  (__init__ transport host_of_url host port true scheme retries backoff w).1 =
    (__init__ transport host_of_url host port false scheme retries backoff w).1 ∧
  sent (__init__ transport host_of_url host port true scheme retries backoff w).2 =
    sent (__init__ transport host_of_url host port false scheme retries backoff w).2 ∧
  headers (__init__ transport host_of_url host port true scheme retries backoff w).2 =
    headers (__init__ transport host_of_url host port false scheme retries backoff w).2 ∧
  insecure_warning_off
    (__init__ transport host_of_url host port true scheme retries backoff w).2 =
    insecure_warning_off w ∧
  insecure_warning_off
    (__init__ transport host_of_url host port false scheme retries backoff w).2 =
    true.
Proof.
  rewrite !init_eq. cbn [fst snd].
  change (status_reply transport (init_world true w))
    with (status_reply transport (init_world false w)).
  split_and!; reflexivity.
Qed.

End Verify.

(** ** The further scenarios, run *)

Lemma paged_server_is_page (total : Z) :
  py_int (VStr (pretty total)) = Ok total →
  ∀ (history : list request) (rq : request) (a b : Z),
    is_post_analysis rq →
    offsets rq = Some (a, b) →
    ∃ resp items,
      paged_server total history rq = Ok resp ∧
      is_page resp total b items ∧
      length items = Z.to_nat (Z.min b total - a).
Proof.
  intros Hint history rq a b _ Hoff. unfold paged_server. rewrite Hoff.
  eexists _, _. split; [reflexivity|]. split; [|apply length_replicate].
  econstructor; try reflexivity. exact Hint.
Qed.

Lemma stalled_server_is_page (history : list request) (rq : request) :
  is_post_analysis rq →
  ∃ resp items,
    stalled_server history rq = Ok resp ∧ is_page resp 10 0 items.
Proof.
  intros _. eexists _, _. split; [reflexivity|].
  econstructor; reflexivity.
Qed.

Lemma login_stores_token_witness :
  ∃ w',
    login status_server (VStr "admin") (VStr "secret") fresh_world =
      (Ok tt, w') ∧
    headers w' = <["X-SecurityCenter" := VStr "abc123"]> (headers fresh_world) ∧
    sent w' =
      sent fresh_world ++
        [token_request (VStr "admin") (VStr "secret") fresh_world] ∧
    req_headers (APISession.prepare "GET" "system" NoBody w')
      !! "X-SecurityCenter" = Some (VStr "abc123").
Proof.
  eapply (login_stores_token status_server); [reflexivity|].
  eexists _, _, _. split_and!; reflexivity.
Defined.

Lemma login_needs_error_code_witness :
  (login bare_token_server (VStr "admin") (VStr "secret") fresh_world).1 =
    Raise (KeyError "error_code") ∧
  headers (login bare_token_server (VStr "admin") (VStr "secret")
             fresh_world).2 = headers fresh_world.
Proof.
  eapply (login_needs_error_code bare_token_server); reflexivity.
Defined.

Lemma login_then_upload_carries_token_witness :
  ∃ rq,
    sent ((_ ← login status_server (VStr "admin") (VStr "secret");
           upload status_server (VStr "scan.nessus")) fresh_world).2 =
      sent fresh_world ++
        [token_request (VStr "admin") (VStr "secret") fresh_world; rq] ∧
    req_method rq = "POST" ∧
    req_path rq = "file/upload" ∧
    req_payload rq = FilesBody {[ "Filedata" := VStr "scan.nessus" ]} ∧
    req_headers rq !! "X-SecurityCenter" = Some (VStr "abc123") ∧
    req_headers (token_request (VStr "admin") (VStr "secret") fresh_world) =
      headers fresh_world.
Proof.
  eapply (login_then_upload_carries_token status_server); [reflexivity|].
  eexists _, _, _. split_and!; reflexivity.
Defined.

Lemma resp_error_check_raises_witness :
  TypeError ≠ ValueError ∧
  ((∃ code msg, TypeError = APIError code msg) ∨
   (TypeError = KeyError "error_code" ∧
    ∃ d, Some (VList []) = Some (VDict d) ∧ d !! "error_code" = None) ∨
   (TypeError = KeyError "error_msg" ∧
    ∃ d c, Some (VList []) = Some (VDict d) ∧ d !! "error_code" = Some c ∧
           truthy c = Ok true ∧ d !! "error_msg" = None) ∨
   (TypeError = TypeError ∧
    ∃ v, Some (VList []) = Some v ∧ ∀ d, v ≠ VDict d)).
Proof.
  apply (resp_error_check_raises (Some (VList [])) TypeError). reflexivity.
Defined.

Lemma analysis_missing_tool_witness :
  analysis status_server no_user_functions 1 [ip_filter] ∅ fresh_world =
    (Raise (KeyError "tool"), fresh_world).
Proof.
  apply analysis_missing_tool; reflexivity.
Defined.

Lemma analysis_short_filter_witness :
  analysis status_server no_user_functions 1
    [ip_filter; [VStr "severity"; VStr "="]] sumip fresh_world =
    (Raise IndexError, fresh_world).
Proof.
  apply analysis_short_filter; [reflexivity|by eexists|].
  apply Exists_cons_tl, Exists_cons_hd. simpl. lia.
Defined.

Lemma analysis_nonpositive_page_size_witness :
  analysis (paged_server 2500) no_user_functions 1 [ip_filter]
    (<["page_size" := VInt 0]> sumip) fresh_world = (Ok VNone, fresh_world).
Proof.
  apply (analysis_nonpositive_page_size _ _ _ _ _ _ 0); [reflexivity|lia|].
  right. split_and!; first [ by eexists | by repeat constructor | by left ].
Defined.

Lemma analysis_transform_without_list_witness :
  ∃ w',
    analysis (paged_server 25) counting_functions 1 [ip_filter]
      (<["page_obj" := VFunc (user_func 0)]> sumip) fresh_world =
      (Ok VNone, w').
Proof.
  destruct (analysis (paged_server 25) counting_functions 1 [ip_filter]
              (<["page_obj" := VFunc (user_func 0)]> sumip) fresh_world)
    as [[v| | |] w'] eqn:Ha; try (vm_compute in Ha; discriminate Ha).
  exists w'. f_equal. f_equal.
  apply (analysis_transform_without_list (paged_server 25) counting_functions
           1 [ip_filter] (<["page_obj" := VFunc (user_func 0)]> sumip)
           fresh_world w' 0 v);
    [reflexivity|done|exact Ha].
Defined.

Lemma analysis_runs_on_witness :
  (analysis stalled_server no_user_functions 5 [ip_filter] sumip
     fresh_world).1 = OutOfFuel ∧
  length (sent (analysis stalled_server no_user_functions 5 [ip_filter] sumip
                  fresh_world).2) = length (sent fresh_world) + 5.
Proof.
  apply (analysis_runs_on _ _ 5 [ip_filter] sumip fresh_world 1000 10 0);
    first [ reflexivity | lia | by eexists | by repeat constructor
          | apply stalled_server_is_page ].
Defined.

Lemma analysis_all_pages_witness :
  ∃ output reqs w',
    analysis (paged_server 25) no_user_functions 3 [ip_filter]
      (<["page_size" := VInt 10]> sumip) fresh_world =
      (Ok (if decide (0 < 25)%Z then VList output else VNone), w') ∧
    sent w' = sent fresh_world ++ reqs ∧
    Forall is_post_analysis reqs ∧
    offsets <$> reqs = Some <$> page_offsets 10 (page_count 25 10) ∧
    length output = Z.to_nat 25.
Proof.
  apply analysis_all_pages;
    first [ reflexivity | lia | by eexists | by repeat constructor
          | by apply paged_server_is_page | vm_compute; lia ].
Defined.

Lemma analysis_single_page_results_witness :
  ∃ rq,
    analysis stalled_server no_user_functions 1 [ip_filter]
      (<["page" := VInt 0]> sumip) fresh_world =
      (Ok (VList [VStr "rec"]), APISession.record_sent rq fresh_world) ∧
    is_post_analysis rq.
Proof.
  eapply (analysis_single_page_results stalled_server no_user_functions 0
            [ip_filter] (<["page" := VInt 0]> sumip) fresh_world 0 1000 _ 10
            [VStr "rec"]);
    try first [ reflexivity | lia | by intros ].
  - right. split_and!; first [ by eexists | by repeat constructor | idtac ].
    right. by eexists _, _.
  - eexists _, _, _, _. split_and!; reflexivity.
Defined.

(** *** One page, whatever the query *)

Lemma Ok_inj {A : Type} (a b : A) : Ok a = Ok b → a = b.
Proof. by intros [= ->]. Qed.

Section SinglePage.

Variable transport : list request -> request -> outcome response.
Variable user_call : nat -> dict -> outcome value.

(** C4, amended. With an integer page [p], a positive integer page size
    [s] and keyword arguments the query can be built from, [analysis]
    sends exactly one [POST analysis] request and the loop is over after
    that round, whatever the server answers (the transport and the
    caller's functions being such that they come back). When no custom
    query is given, the query of that request has [startOffset = p*s] and
    [endOffset = (p+1)*s]; a custom query is sent as the caller gave
    it. *)
Theorem analysis_single_page (fuel : nat) (filters : list (list value))
    (kwargs : dict) (w : world) (p s : Z) :
  (∀ history rq, transport history rq ≠ OutOfFuel) →
  (∀ id kw, user_call id kw ≠ OutOfFuel) →
  kwargs !! "page" = Some (VInt p) →
  default (VInt 1000) (kwargs !! "page_size") = VInt s →
  (0 < s)%Z →
  query_buildable filters kwargs →
  ∃ rq,
    (analysis transport user_call (S fuel) filters kwargs w).1 ≠ OutOfFuel ∧
    sent (analysis transport user_call (S fuel) filters kwargs w).2 =
      sent w ++ [rq] ∧
    is_post_analysis rq ∧
    (kwargs !! "query" = None →
     offsets rq = Some (p * s, (p + 1) * s)%Z) ∧
    (∀ q, kwargs !! "query" = Some q →
          ∃ kw, req_payload rq = JsonBody kw ∧ kw !! "query" = Some q).
Proof.
  intros Htr Hu Hpage Hsize Hpos Hbuild.
  destruct (analysis_setup_buildable _ _ _ Hsize Hbuild)
    as (s0 & Hsetup & Ht & Hc & _).
  destruct (analysis_setup_Ok _ _ _ Hsetup) as (Hopts & _).
  destruct (analysis_world transport user_call (S fuel) filters kwargs w s0
              Hsetup) as [Hw Hf].
  assert (Hp0 : f_opts s0 !! "page" = Some (VInt p)).
  { rewrite Hopts.
    destruct (split_opts (defaults kwargs)) as [opts body] eqn:Hs.
    destruct (split_defaults _ _ _ Hs) as (Ho1 & _).
    by rewrite Hpage in Ho1. }
  destruct (analysis_loop_single transport user_call fuel s0 w (VInt p)
              Htr Hu Hp0) as [Hfuel Hsent]; [done| |].
  { rewrite Ht, Hc. cbn [py_gt]. by rewrite (proj2 (Z.ltb_lt 0 s) Hpos). }
  exists (page_request s0 w). split_and!.
  - intros Hout. by apply Hfuel, Hf.
  - by rewrite Hw, Hsent.
  - done.
  - intros Hquery.
    destruct Hbuild as [[q Hq]|(Htool & Hfilters & _)]; [congruence|].
    destruct Htool as [tool Htool].
    destruct (for_each_filter_entry_ok
                (default (VStr "vuln") (kwargs !! "type")) filters Hfilters)
      as [fs Hfs].
    pose proof (analysis_setup_built filters kwargs tool fs Hquery Htool Hfs)
      as Hbuilt.
    assert (Hdp : default (VStr "all") (kwargs !! "page") = VInt p)
      by (by rewrite Hpage).
    rewrite Hdp, Hsize, first_offsets_page in Hbuilt. unfold_py.
    cbn [fst snd] in Hbuilt. rewrite Hsetup in Hbuilt.
    apply Ok_inj in Hbuilt. rewrite Hbuilt.
    unfold offsets, page_request, APISession.prepare.
    cbn [req_payload f_kwargs]. rewrite lookup_insert_eq. unfold query_dict.
    by rewrite lookup_insert_ne, lookup_insert_eq, lookup_insert_eq.
  - intros q Hq.
    pose proof (analysis_setup_custom filters kwargs (mk_is_Some _ _ Hq))
      as Hcustom.
    rewrite Hsetup in Hcustom. apply Ok_inj in Hcustom. rewrite Hcustom.
    eexists. split; [reflexivity|]. cbn [f_kwargs].
    destruct (split_opts (defaults kwargs)) as [opts body] eqn:Hs.
    destruct (split_defaults _ _ _ Hs) as (_ & _ & _ & _ & Hbq & _).
    cbn [snd]. by rewrite Hbq.
Qed.

End SinglePage.

Lemma analysis_single_page_witness :
  ∃ rq,
    (analysis (paged_server 2500) no_user_functions 1 [ip_filter]
       (<["page" := VInt 2]> (<["page_size" := VInt 500]> sumip))
       fresh_world).1 ≠ OutOfFuel ∧
    sent (analysis (paged_server 2500) no_user_functions 1 [ip_filter]
            (<["page" := VInt 2]> (<["page_size" := VInt 500]> sumip))
            fresh_world).2 = sent fresh_world ++ [rq] ∧
    is_post_analysis rq ∧
    ((<["page" := VInt 2]> (<["page_size" := VInt 500]> sumip) : dict)
       !! "query" = None →
     offsets rq = Some (2 * 500, (2 + 1) * 500)%Z) ∧
    (∀ q, (<["page" := VInt 2]> (<["page_size" := VInt 500]> sumip) : dict)
            !! "query" = Some q →
          ∃ kw, req_payload rq = JsonBody kw ∧ kw !! "query" = Some q).
Proof.
  apply (analysis_single_page (paged_server 2500) no_user_functions 0
           [ip_filter] (<["page" := VInt 2]> (<["page_size" := VInt 500]> sumip))
           fresh_world 2 500).
  - intros history rq. apply paged_server_returns.
  - intros id kw. discriminate.
  - reflexivity.
  - reflexivity.
  - lia.
  - right. split; [by eexists|]. split; [by repeat constructor|].
    right. by eexists _, _.
Defined.

